(** * The Catalyst adaptor of Eilmer: src/extern/catalyst/CatalystAdaptor.c

    The adaptor has three entry points, [do_catalyst_initialization],
    [do_catalyt_execute] and [do_catalyt_finalization].  Each one builds
    Conduit nodes, hands one to the Catalyst pipeline and destroys what it
    built.  The embedding below follows the C text statement by statement:

    - C integers are [Z] values carried with their range ([CTypes]);
    - a Conduit node is a tree of named children with typed leaves, and the
      live nodes of the process are a finite map from handles to trees;
    - the C functions are written in a state monad whose outcomes are a
      normal return, a call of [exit], or a fault (use of a dead handle);
    - the Catalyst pipeline is a parameter: any three functions that read the
      description they are given and answer with a status. *)

From Stdlib Require Import ZArith String Ascii DecimalString.
From Stdlib Require Import Floats.PrimFloat.
From stdpp Require Import gmap strings list.

Local Open Scope Z_scope.

(** ** C scalar types (LP64) *)

Module CTypes.

Definition in_range (lo hi z : Z) : bool := (lo <=? z) && (z <? hi).

(** [int]: 32 bits, two's complement. *)
Record int := mk_int {
  int_val : Z;
  int_ok : in_range (- 2 ^ 31) (2 ^ 31) int_val = true
}.

(** [unsigned int]: 32 bits. *)
Record uint := mk_uint {
  uint_val : Z;
  uint_ok : in_range 0 (2 ^ 32) uint_val = true
}.

(** [sizeof(double)], of type [size_t]. *)
Definition sizeof_double : Z := 8.

(** Conversion of an integer value to a signed 64-bit type
    ([conduit_int64], [conduit_index_t]): reduction modulo 2^64 into
    [-2^63, 2^63). *)
Definition to_int64 (z : Z) : Z := (z + 2 ^ 63) mod 2 ^ 64 - 2 ^ 63.

(** [printf]'s [%d] conversion. *)
Definition string_of_Z (z : Z) : string :=
  NilZero.string_of_int (Z.to_int z).

(** Expansion of a format string holding [%d] conversions, all fed the same
    argument (the formats of this file hold exactly one). *)
Fixpoint format_d (fmt : string) (arg : Z) : string :=
  match fmt with
  | String "%" (String "d" rest) => string_of_Z arg +:+ format_d rest arg
  | String c rest => String c (format_d rest arg)
  | EmptyString => EmptyString
  end.

(** The character written by the escape [\n]. *)
Definition LF : string := String "010" EmptyString.

End CTypes.
Import CTypes.

(** ** Conduit nodes

    The Conduit C API is a third-party library; only the calls the adaptor
    makes are modelled, with the behaviour Conduit documents for them:
    [set_path] walks the path component by component, creates the missing
    children in insertion order, and overwrites the leaf at the end. *)

(** Handle of a node ([conduit_node*]). *)
Abbreviation conduit_node := nat (only parsing).

(** Description of external memory: what
    [conduit_node_set_path_external_*_ptr_detailed] records.  Nothing is
    copied; [data] is the address the caller gave. *)
Record array_view := mk_view {
  data : Z;
  num_elements : Z;
  offset : Z;
  stride : Z;
  element_bytes : Z;
  endianness : Z
}.

Inductive dtype := float64_id | int64_id.

Inductive leaf :=
| char8_str (s : string)
| int64 (v : Z)
| float64 (v : float)
| external_array (t : dtype) (v : array_view)
| external_node (n : conduit_node).

#[warnings="-register-all"]
Inductive node :=
| Empty
| Leaf (v : leaf)
| Object (children : list (string * node)).

Definition CONDUIT_ENDIANNESS_DEFAULT_ID : Z := 0.

Definition children (n : node) : list (string * node) :=
  match n with
  | Object cs => cs
  | _ => []
  end.

(** Splitting of a path at its ['/'] separators. *)
Fixpoint split_path_from (cur s : string) : list string :=
  match s with
  | EmptyString => [cur]
  | String c s' =>
      if Ascii.eqb c "/" then cur :: split_path_from EmptyString s'
      else split_path_from (cur +:+ String c EmptyString) s'
  end.

Definition split_path (s : string) : list string := split_path_from EmptyString s.

Fixpoint lookup_child (k : string) (cs : list (string * node)) : option node :=
  match cs with
  | [] => None
  | (k', c) :: cs' => if String.eqb k k' then Some c else lookup_child k cs'
  end.

(** Apply [f] to the child named [k]; a missing child is appended, starting
    from the empty node. *)
Fixpoint update_child (k : string) (f : node -> node) (cs : list (string * node))
  : list (string * node) :=
  match cs with
  | [] => [(k, f Empty)]
  | (k', c) :: cs' =>
      if String.eqb k k' then (k', f c) :: cs' else (k', c) :: update_child k f cs'
  end.

(** [node.fetch(path).set(v)] *)
Fixpoint node_set (p : list string) (v : leaf) (n : node) : node :=
  match p with
  | [] => Leaf v
  | k :: p' => Object (update_child k (node_set p' v) (children n))
  end.

(** Read access by path; [None] when the path is absent. *)
Fixpoint node_fetch (p : list string) (n : node) : option node :=
  match p with
  | [] => Some n
  | k :: p' =>
      match lookup_child k (children n) with
      | Some c => node_fetch p' c
      | None => None
      end
  end.

Definition fetch_path (path : string) (n : node) : option node :=
  node_fetch (split_path path) n.

(** Names of the children of the node at [path], in insertion order. *)
Definition child_names (path : string) (n : node) : option (list string) :=
  match fetch_path path n with
  | Some c => Some (map fst (children c))
  | None => None
  end.

(** All leaves of a node with their paths, in document order. *)
Fixpoint node_leaves (n : node) : list (list string * leaf) :=
  match n with
  | Empty => []
  | Leaf v => [([], v)]
  | Object cs =>
      (fix go (cs : list (string * node)) : list (list string * leaf) :=
         match cs with
         | [] => []
         | (k, c) :: cs' =>
             map (fun pv => (k :: fst pv, snd pv)) (node_leaves c) ++ go cs'
         end) cs
  end.

(** The external arrays a node describes. *)
Definition leaf_view (v : leaf) : option array_view :=
  match v with
  | external_array _ w => Some w
  | _ => None
  end.

Definition node_views (n : node) : list array_view :=
  omap (fun pv => leaf_view (snd pv)) (node_leaves n).

(** ** The simulation's memory and zero-copy views *)

(** Byte-addressed memory; an address outside the map is not allocated. *)
Definition load_bytes (m : gmap Z Byte.byte) (addr len : Z) : option (list Byte.byte) :=
  mapM (fun k => m !! (addr + k)) (seqZ 0 len).

(** Element [i] of an external array, as Conduit addresses it:
    [(char* )data + offset + i * stride], [element_bytes] bytes long. *)
Definition view_element (m : gmap Z Byte.byte) (v : array_view) (i : Z)
  : option (list Byte.byte) :=
  if (0 <=? i) && (i <? num_elements v)
  then load_bytes m (data v + offset v + i * stride v) (element_bytes v)
  else None.

(** The C expression [p[k]] for [double* p] (and [long* p]: both 8 bytes). *)
Definition c_index (m : gmap Z Byte.byte) (p k : Z) : option (list Byte.byte) :=
  load_bytes m (p + k * sizeof_double) sizeof_double.

(** ** The snapshot handed over by the simulation *)

Record CatalystData := mk_CatalystData {
  dimensions : int;
  NumberOfPoints : uint;
  NumberOfCells : uint;
  Cell2VertexSize : uint;
  Points : Z;
  Cells : Z;
  velx : Z;
  vely : Z;
  velz : Z;
  Pressure : Z
}.

(** ** The Catalyst pipeline

    [enum catalyst_status] comes from catalyst.h; the adaptor only compares
    it with [catalyst_status_ok] and prints it with [%d]. *)

Definition catalyst_status := Z.
Definition catalyst_status_ok : catalyst_status := 0.

(** What an entry point of the pipeline is given: the live nodes, the
    memory their external leaves point into, and the handle of the root.
    The C API takes the description as [const conduit_node*]: an entry point
    reads the nodes and the memory and changes neither.  It answers with a
    status and its own next state; a pipeline that never answers is outside
    this model. *)
Class Catalyst (pipeline : Type) := {
  pipeline_initialize :
    gmap nat node -> gmap Z Byte.byte -> conduit_node -> pipeline -> catalyst_status * pipeline;
  pipeline_execute :
    gmap nat node -> gmap Z Byte.byte -> conduit_node -> pipeline -> catalyst_status * pipeline;
  pipeline_finalize :
    gmap nat node -> gmap Z Byte.byte -> conduit_node -> pipeline -> catalyst_status * pipeline
}.

Inductive entry_point := Initialize | Execute | Finalize.

(** One call into the pipeline: which entry point, the handle passed and the
    nodes that were live at that moment. *)
Record call := mk_call {
  entry : entry_point;
  params : conduit_node;
  live : gmap nat node
}.

(** The mesh a submitted description carries on the channel "grid": the
    node behind the external link at [catalyst/channels/grid/data]. *)
Definition submitted_mesh (c : call) : option (conduit_node * node) :=
  match live c !! params c with
  | Some t =>
      match fetch_path "catalyst/channels/grid/data" t with
      | Some (Leaf (external_node m)) =>
          match live c !! m with
          | Some mesh => Some (m, mesh)
          | None => None
          end
      | _ => None
      end
  | None => None
  end.

(** ** Process state and the monad of the C functions *)

Section Adaptor.

Context {pipeline : Type} `{Catalyst pipeline}.

Record state := mk_state {
  nodes : gmap nat node;          (* live Conduit nodes *)
  memory : gmap Z Byte.byte;      (* memory owned by the simulation *)
  stdout : string;                (* what printf has written *)
  backend : pipeline;             (* state of the Catalyst pipeline *)
  calls : list call               (* calls made into the pipeline *)
}.

Inductive outcome (A : Type) :=
| Returns (a : A) (s : state)
| Exits (code : Z) (s : state)
| Fault.
Arguments Returns {A}.
Arguments Exits {A}.
Arguments Fault {A}.

Definition M (A : Type) : Type := state -> outcome A.

#[local] Instance M_ret : MRet M := fun A a s => Returns a s.

#[local] Instance M_bind : MBind M := fun A B f m s =>
  match m s with
  | Returns a s' => f a s'
  | Exits c s' => Exits c s'
  | Fault => Fault
  end.

Definition set_node (n : conduit_node) (t : node) (s : state) : state :=
  mk_state (<[n := t]> (nodes s)) (memory s) (stdout s) (backend s) (calls s).

Definition drop_node (n : conduit_node) (s : state) : state :=
  mk_state (delete n (nodes s)) (memory s) (stdout s) (backend s) (calls s).

Definition write_stdout (msg : string) (s : state) : state :=
  mk_state (nodes s) (memory s) (stdout s +:+ msg) (backend s) (calls s).

Definition record_call (c : call) (b : pipeline) (s : state) : state :=
  mk_state (nodes s) (memory s) (stdout s) b (calls s ++ [c]).

(** *** libc *)

Definition printf (fmt : string) (arg : Z) : M unit :=
  fun s => Returns tt (write_stdout (format_d fmt arg) s).

Definition exit {A : Type} (code : Z) : M A :=
  fun s => Exits code s.

(** *** Conduit *)

Definition conduit_node_create : M conduit_node :=
  fun s => let n := fresh (dom (nodes s)) in Returns n (set_node n Empty s).

Definition conduit_node_destroy (n : conduit_node) : M unit :=
  fun s =>
    match nodes s !! n with
    | Some _ => Returns tt (drop_node n s)
    | None => Fault
    end.

Definition update_node (n : conduit_node) (f : node -> node) : M unit :=
  fun s =>
    match nodes s !! n with
    | Some t => Returns tt (set_node n (f t) s)
    | None => Fault
    end.

Definition conduit_node_set_path_char8_str (n : conduit_node) (path value : string) : M unit :=
  update_node n (node_set (split_path path) (char8_str value)).

Definition conduit_node_set_path_int64 (n : conduit_node) (path : string) (value : Z) : M unit :=
  update_node n (node_set (split_path path) (int64 (to_int64 value))).

Definition conduit_node_set_path_float64 (n : conduit_node) (path : string) (value : float) : M unit :=
  update_node n (node_set (split_path path) (float64 value)).

Definition conduit_node_set_path_external_float64_ptr_detailed
  (n : conduit_node) (path : string)
  (data num_elements offset stride element_bytes endianness : Z) : M unit :=
  update_node n (node_set (split_path path)
    (external_array float64_id
       (mk_view data (to_int64 num_elements) (to_int64 offset) (to_int64 stride)
          (to_int64 element_bytes) (to_int64 endianness)))).

Definition conduit_node_set_path_external_float64_ptr
  (n : conduit_node) (path : string) (data num_elements : Z) : M unit :=
  conduit_node_set_path_external_float64_ptr_detailed n path data num_elements
    0 sizeof_double sizeof_double CONDUIT_ENDIANNESS_DEFAULT_ID.

Definition conduit_node_set_path_external_int64_ptr
  (n : conduit_node) (path : string) (data num_elements : Z) : M unit :=
  update_node n (node_set (split_path path)
    (external_array int64_id
       (mk_view data (to_int64 num_elements) 0 8 8 CONDUIT_ENDIANNESS_DEFAULT_ID))).

Definition conduit_node_set_path_external_node
  (n : conduit_node) (path : string) (other : conduit_node) : M unit :=
  fun s =>
    match nodes s !! other with
    | Some _ => update_node n (node_set (split_path path) (external_node other)) s
    | None => Fault
    end.

(** *** Catalyst *)

Definition call_pipeline (e : entry_point)
  (f : gmap nat node -> gmap Z Byte.byte -> conduit_node -> pipeline -> catalyst_status * pipeline)
  (p : conduit_node) : M catalyst_status :=
  fun s =>
    match nodes s !! p with
    | Some _ =>
        let r := f (nodes s) (memory s) p (backend s) in
        Returns (fst r) (record_call (mk_call e p (nodes s)) (snd r) s)
    | None => Fault
    end.

Definition catalyst_initialize := call_pipeline Initialize pipeline_initialize.
Definition catalyst_execute := call_pipeline Execute pipeline_execute.
Definition catalyst_finalize := call_pipeline Finalize pipeline_finalize.

(** ** The adaptor *)

Definition do_catalyst_initialization : M unit :=
  catalyst_init_params ← conduit_node_create;
  conduit_node_set_path_char8_str catalyst_init_params
    "catalyst/scripts/script0" "catalyst_pipeline.py";;
  conduit_node_set_path_char8_str catalyst_init_params
    "catalyst_load/implementation" "paraview";;
  conduit_node_set_path_char8_str catalyst_init_params
    "catalyst_load/search_paths/paraview"
    "/home/uqngibbo/source/ParaView/build/lib/catalyst";;
  err ← catalyst_initialize catalyst_init_params;
  conduit_node_destroy catalyst_init_params;;
  if negb (err =? catalyst_status_ok)
  then printf ("Failed to initialize Catalyst: %d" +:+ LF) err
  else mret tt.

Definition do_catalyt_execute (cycle : int) (time : float) (data : CatalystData) : M unit :=
  catalyst_exec_params ← conduit_node_create;
  conduit_node_set_path_int64 catalyst_exec_params "catalyst/state/timestep" (int_val cycle);;
  conduit_node_set_path_float64 catalyst_exec_params "catalyst/state/time" time;;
  conduit_node_set_path_char8_str catalyst_exec_params "catalyst/channels/grid/type" "mesh";;
  mesh ← conduit_node_create;
  conduit_node_set_path_char8_str mesh "coordsets/coords/type" "explicit";;
  conduit_node_set_path_char8_str mesh "coordsets/coords/type" "explicit";;
  conduit_node_set_path_external_float64_ptr_detailed mesh "coordsets/coords/values/x"
    (Points data) (uint_val (NumberOfPoints data)) 0
    (3 * sizeof_double) sizeof_double CONDUIT_ENDIANNESS_DEFAULT_ID;;
  conduit_node_set_path_external_float64_ptr_detailed mesh "coordsets/coords/values/y"
    (Points data) (uint_val (NumberOfPoints data)) (1 * sizeof_double)
    (3 * sizeof_double) sizeof_double CONDUIT_ENDIANNESS_DEFAULT_ID;;
  conduit_node_set_path_external_float64_ptr_detailed mesh "coordsets/coords/values/z"
    (Points data) (uint_val (NumberOfPoints data)) (2 * sizeof_double)
    (3 * sizeof_double) sizeof_double CONDUIT_ENDIANNESS_DEFAULT_ID;;
  conduit_node_set_path_char8_str mesh "topologies/mesh/type" "unstructured";;
  conduit_node_set_path_char8_str mesh "topologies/mesh/coordset" "coords";;
  (if int_val (dimensions data) =? 2 then
     conduit_node_set_path_char8_str mesh "topologies/mesh/elements/shape" "quad"
   else if int_val (dimensions data) =? 3 then
     conduit_node_set_path_char8_str mesh "topologies/mesh/elements/shape" "hex"
   else
     printf "Error, incorrect dimensions %d " (int_val (dimensions data));;
     exit 1);;
  conduit_node_set_path_external_int64_ptr mesh "topologies/mesh/elements/connectivity"
    (Cells data) (uint_val (Cell2VertexSize data));;
  conduit_node_set_path_char8_str mesh "fields/velx/association" "element";;
  conduit_node_set_path_char8_str mesh "fields/velx/topology" "mesh";;
  conduit_node_set_path_char8_str mesh "fields/velx/volume_dependent" "false";;
  conduit_node_set_path_external_float64_ptr mesh "fields/velx/values"
    (velx data) (uint_val (NumberOfCells data));;
  conduit_node_set_path_char8_str mesh "fields/vely/association" "element";;
  conduit_node_set_path_char8_str mesh "fields/vely/topology" "mesh";;
  conduit_node_set_path_char8_str mesh "fields/vely/volume_dependent" "false";;
  conduit_node_set_path_external_float64_ptr mesh "fields/vely/values"
    (vely data) (uint_val (NumberOfCells data));;
  conduit_node_set_path_char8_str mesh "fields/velz/association" "element";;
  conduit_node_set_path_char8_str mesh "fields/velz/topology" "mesh";;
  conduit_node_set_path_char8_str mesh "fields/velz/volume_dependent" "false";;
  conduit_node_set_path_external_float64_ptr mesh "fields/velz/values"
    (velz data) (uint_val (NumberOfCells data));;
  conduit_node_set_path_char8_str mesh "fields/pressure/association" "element";;
  conduit_node_set_path_char8_str mesh "fields/pressure/topology" "mesh";;
  conduit_node_set_path_char8_str mesh "fields/pressure/volume_dependent" "false";;
  conduit_node_set_path_external_float64_ptr mesh "fields/pressure/values"
    (Pressure data) (uint_val (NumberOfCells data));;
  conduit_node_set_path_external_node catalyst_exec_params "catalyst/channels/grid/data" mesh;;
  err ← catalyst_execute catalyst_exec_params;
  (if negb (err =? catalyst_status_ok)
   then printf ("Failed to execute Catalyst: %d" +:+ LF) err
   else mret tt);;
  conduit_node_destroy catalyst_exec_params;;
  conduit_node_destroy mesh.

Definition do_catalyt_finalization : M unit :=
  catalyst_fini_params ← conduit_node_create;
  err ← catalyst_finalize catalyst_fini_params;
  (if negb (err =? catalyst_status_ok)
   then printf ("Failed to execute Catalyst: %d" +:+ LF) err
   else mret tt);;
  conduit_node_destroy catalyst_fini_params.

(** [do_catalyt_execute] with the second of its two identical writes to
    [coordsets/coords/type] (line 70 of the C file) left out: the function
    the duplicated write is compared with. *)
Definition do_catalyt_execute_single_write (cycle : int) (time : float) (data : CatalystData) : M unit :=
  catalyst_exec_params ← conduit_node_create;
  conduit_node_set_path_int64 catalyst_exec_params "catalyst/state/timestep" (int_val cycle);;
  conduit_node_set_path_float64 catalyst_exec_params "catalyst/state/time" time;;
  conduit_node_set_path_char8_str catalyst_exec_params "catalyst/channels/grid/type" "mesh";;
  mesh ← conduit_node_create;
  conduit_node_set_path_char8_str mesh "coordsets/coords/type" "explicit";;
  conduit_node_set_path_external_float64_ptr_detailed mesh "coordsets/coords/values/x"
    (Points data) (uint_val (NumberOfPoints data)) 0
    (3 * sizeof_double) sizeof_double CONDUIT_ENDIANNESS_DEFAULT_ID;;
  conduit_node_set_path_external_float64_ptr_detailed mesh "coordsets/coords/values/y"
    (Points data) (uint_val (NumberOfPoints data)) (1 * sizeof_double)
    (3 * sizeof_double) sizeof_double CONDUIT_ENDIANNESS_DEFAULT_ID;;
  conduit_node_set_path_external_float64_ptr_detailed mesh "coordsets/coords/values/z"
    (Points data) (uint_val (NumberOfPoints data)) (2 * sizeof_double)
    (3 * sizeof_double) sizeof_double CONDUIT_ENDIANNESS_DEFAULT_ID;;
  conduit_node_set_path_char8_str mesh "topologies/mesh/type" "unstructured";;
  conduit_node_set_path_char8_str mesh "topologies/mesh/coordset" "coords";;
  (if int_val (dimensions data) =? 2 then
     conduit_node_set_path_char8_str mesh "topologies/mesh/elements/shape" "quad"
   else if int_val (dimensions data) =? 3 then
     conduit_node_set_path_char8_str mesh "topologies/mesh/elements/shape" "hex"
   else
     printf "Error, incorrect dimensions %d " (int_val (dimensions data));;
     exit 1);;
  conduit_node_set_path_external_int64_ptr mesh "topologies/mesh/elements/connectivity"
    (Cells data) (uint_val (Cell2VertexSize data));;
  conduit_node_set_path_char8_str mesh "fields/velx/association" "element";;
  conduit_node_set_path_char8_str mesh "fields/velx/topology" "mesh";;
  conduit_node_set_path_char8_str mesh "fields/velx/volume_dependent" "false";;
  conduit_node_set_path_external_float64_ptr mesh "fields/velx/values"
    (velx data) (uint_val (NumberOfCells data));;
  conduit_node_set_path_char8_str mesh "fields/vely/association" "element";;
  conduit_node_set_path_char8_str mesh "fields/vely/topology" "mesh";;
  conduit_node_set_path_char8_str mesh "fields/vely/volume_dependent" "false";;
  conduit_node_set_path_external_float64_ptr mesh "fields/vely/values"
    (vely data) (uint_val (NumberOfCells data));;
  conduit_node_set_path_char8_str mesh "fields/velz/association" "element";;
  conduit_node_set_path_char8_str mesh "fields/velz/topology" "mesh";;
  conduit_node_set_path_char8_str mesh "fields/velz/volume_dependent" "false";;
  conduit_node_set_path_external_float64_ptr mesh "fields/velz/values"
    (velz data) (uint_val (NumberOfCells data));;
  conduit_node_set_path_char8_str mesh "fields/pressure/association" "element";;
  conduit_node_set_path_char8_str mesh "fields/pressure/topology" "mesh";;
  conduit_node_set_path_char8_str mesh "fields/pressure/volume_dependent" "false";;
  conduit_node_set_path_external_float64_ptr mesh "fields/pressure/values"
    (Pressure data) (uint_val (NumberOfCells data));;
  conduit_node_set_path_external_node catalyst_exec_params "catalyst/channels/grid/data" mesh;;
  err ← catalyst_execute catalyst_exec_params;
  (if negb (err =? catalyst_status_ok)
   then printf ("Failed to execute Catalyst: %d" +:+ LF) err
   else mret tt);;
  conduit_node_destroy catalyst_exec_params;;
  conduit_node_destroy mesh.

End Adaptor.

Arguments Returns {pipeline A}.
Arguments Exits {pipeline A}.
Arguments Fault {pipeline A}.
#[global] Existing Instances M_ret M_bind.

(** ** The descriptions in closed form

    The trees the three entry points are shown to build (lemmas
    [do_catalyst_initialization_run], [do_catalyt_execute_run] and
    [do_catalyt_execute_exit] below). *)

Definition init_description : node :=
  Object
    [("catalyst", Object [("scripts", Object [("script0", Leaf (char8_str "catalyst_pipeline.py"))])]);
     ("catalyst_load", Object
        [("implementation", Leaf (char8_str "paraview"));
         ("search_paths", Object
            [("paraview", Leaf (char8_str "/home/uqngibbo/source/ParaView/build/lib/catalyst"))])])].

Definition exec_state (cycle : int) (time : float) : list (string * node) :=
  [("state", Object [("timestep", Leaf (int64 (int_val cycle))); ("time", Leaf (float64 time))])].

(** Execution parameters before and after the mesh is attached. *)
Definition exec_description (cycle : int) (time : float) (mesh : option conduit_node) : node :=
  Object
    [("catalyst", Object
        (exec_state cycle time ++
         [("channels", Object
             [("grid", Object
                (("type", Leaf (char8_str "mesh")) ::
                 match mesh with
                 | Some m => [("data", Leaf (external_node m))]
                 | None => []
                 end))])]))].

Definition coords_view (d : CatalystData) (off : Z) : node :=
  Leaf (external_array float64_id
          (mk_view (Points d) (uint_val (NumberOfPoints d)) off 24 8 0)).

Definition coordsets_description (d : CatalystData) : string * node :=
  ("coordsets", Object
     [("coords", Object
         [("type", Leaf (char8_str "explicit"));
          ("values", Object
             [("x", coords_view d 0); ("y", coords_view d 8); ("z", coords_view d 16)])])]).

Definition field_description (values : Z) (d : CatalystData) : node :=
  Object
    [("association", Leaf (char8_str "element"));
     ("topology", Leaf (char8_str "mesh"));
     ("volume_dependent", Leaf (char8_str "false"));
     ("values", Leaf (external_array float64_id
                        (mk_view values (uint_val (NumberOfCells d)) 0 8 8 0)))].

(** The mesh as submitted, for a valid [dimensions]. *)
Definition mesh_description (d : CatalystData) (shape : string) : node :=
  Object
    [coordsets_description d;
     ("topologies", Object
        [("mesh", Object
            [("type", Leaf (char8_str "unstructured"));
             ("coordset", Leaf (char8_str "coords"));
             ("elements", Object
                [("shape", Leaf (char8_str shape));
                 ("connectivity", Leaf (external_array int64_id
                    (mk_view (Cells d) (uint_val (Cell2VertexSize d)) 0 8 8 0)))])])]);
     ("fields", Object
        [("velx", field_description (velx d) d);
         ("vely", field_description (vely d) d);
         ("velz", field_description (velz d) d);
         ("pressure", field_description (Pressure d) d)])].

(** The mesh as it stands when an invalid [dimensions] stops the process. *)
Definition partial_mesh_description (d : CatalystData) : node :=
  Object
    [coordsets_description d;
     ("topologies", Object
        [("mesh", Object
            [("type", Leaf (char8_str "unstructured"));
             ("coordset", Leaf (char8_str "coords"))])])].

(** The element shape the adaptor selects. *)
Definition shape_of (d : CatalystData) : option string :=
  if int_val (dimensions d) =? 2 then Some "quad"
  else if int_val (dimensions d) =? 3 then Some "hex"
  else None.

(** What the status check after a pipeline call does to the process. *)
Definition log_status {pipeline : Type} (fmt : string) (err : catalyst_status)
  (s : @state pipeline) : @state pipeline :=
  if negb (err =? catalyst_status_ok) then write_stdout (format_d (fmt +:+ LF) err) s else s.

(** The handles [conduit_node_create] returns to [do_catalyt_execute]: the
    first for the execution parameters, the second for the mesh. *)
Definition exec_handle {pipeline : Type} (s : @state pipeline) : conduit_node :=
  fresh (dom (nodes s)).

Definition mesh_handle {pipeline : Type} (s : @state pipeline) : conduit_node :=
  fresh ({[exec_handle s]} ∪ dom (nodes s)).

(** ** Vocabulary of the specification *)

(** Vertices per cell of the two element shapes. *)
Definition verticesPerCell (dims : Z) : option Z :=
  if dims =? 2 then Some 4 else if dims =? 3 then Some 8 else None.

(** A snapshot is internally consistent when its connectivity holds
    [verticesPerCell] entries for each cell. *)
Definition internally_consistent (d : CatalystData) : Prop :=
  exists vpc, verticesPerCell (int_val (dimensions d)) = Some vpc /\
              uint_val (Cell2VertexSize d) = uint_val (NumberOfCells d) * vpc.

(** The node at [path] is a zero-copy float64 view with the given layout. *)
Definition is_float64_view (tree : node) (path : string) (v : array_view) : Prop :=
  fetch_path path tree = Some (Leaf (external_array float64_id v)).

(** One field entry of the mesh: its three tags and its values. *)
Definition is_cell_field (tree : node) (name : string) (values : Z) (cells : Z) : Prop :=
  child_names ("fields/" +:+ name) tree =
    Some ["association"; "topology"; "volume_dependent"; "values"] /\
  fetch_path ("fields/" +:+ name +:+ "/association") tree = Some (Leaf (char8_str "element")) /\
  fetch_path ("fields/" +:+ name +:+ "/topology") tree = Some (Leaf (char8_str "mesh")) /\
  fetch_path ("fields/" +:+ name +:+ "/volume_dependent") tree = Some (Leaf (char8_str "false")) /\
  is_float64_view tree ("fields/" +:+ name +:+ "/values")
    (mk_view values cells 0 8 8 CONDUIT_ENDIANNESS_DEFAULT_ID).

(** What a run of the Builder shows of the mesh it built: a run that returns
    has submitted it, linked from the parameters of exactly one more call of
    the execute entry point; a run that stops the process leaves it live. *)
Definition built {pipeline : Type} (s : @state pipeline) (o : @outcome pipeline unit)
  (m : conduit_node) (tree : node) : Prop :=
  match o with
  | Returns _ s' =>
      exists c, calls s' = calls s ++ [c] /\ entry c = Execute /\
                submitted_mesh c = Some (m, tree)
  | Exits _ s' => nodes s' !! m = Some tree
  | Fault => False
  end.

(** The coordinate axes with their component index in a point. *)
Definition axes : list (string * Z) := [("x", 0); ("y", 1); ("z", 2)].

(** The cell fields with the snapshot array each one views. *)
Definition cell_fields (d : CatalystData) : list (string * Z) :=
  [("velx", velx d); ("vely", vely d); ("velz", velz d); ("pressure", Pressure d)].

(** [dimensions] is one of the two values the Builder accepts. *)
Definition valid_dimensions (d : CatalystData) : Prop :=
  int_val (dimensions d) = 2 \/ int_val (dimensions d) = 3.

(** The status [err] was checked between [s] and [s']: a status other than
    ok has put one line on stdout, [prefix] followed by the status in decimal;
    the ok status has put nothing. *)
Definition status_reported {pipeline : Type} (prefix : string) (err : catalyst_status)
  (s s' : @state pipeline) : Prop :=
  (err ≠ catalyst_status_ok -> stdout s' = stdout s +:+ prefix +:+ string_of_Z err +:+ LF) /\
  (err = catalyst_status_ok -> stdout s' = stdout s).

(** ** Sequences of calls and the bytes a view addresses *)

(** The calling convention of the adaptor ("Execute per cycle"): the
    Builder is called once for each cycle, in order; a call that stops the
    process ends the sequence. *)
Fixpoint execute_cycles {pipeline : Type} `{Catalyst pipeline}
  (cycles : list (int * float * CatalystData)) : @M pipeline unit :=
  match cycles with
  | [] => mret tt
  | (cycle, time, d) :: rest => do_catalyt_execute cycle time d;; execute_cycles rest
  end.

(** The timestep a call carries in its parameters. *)
Definition submitted_timestep (c : call) : option Z :=
  match live c !! params c with
  | Some t =>
      match fetch_path "catalyst/state/timestep" t with
      | Some (Leaf (int64 v)) => Some v
      | _ => None
      end
  | None => None
  end.

(** Address of the first byte of element [i] of a view, and of the byte
    after its last (the addresses [view_element] loads from). *)
Definition element_first (v : array_view) (i : Z) : Z :=
  data v + offset v + i * stride v.

Definition element_end (v : array_view) (i : Z) : Z :=
  element_first v i + element_bytes v.

(** The arrays the mesh views without a stride of its own: path of the
    view, address of the array, number of elements. *)
Definition dense_arrays (d : CatalystData) : list (string * Z * Z) :=
  [("topologies/mesh/elements/connectivity", Cells d, uint_val (Cell2VertexSize d));
   ("fields/velx/values", velx d, uint_val (NumberOfCells d));
   ("fields/vely/values", vely d, uint_val (NumberOfCells d));
   ("fields/velz/values", velz d, uint_val (NumberOfCells d));
   ("fields/pressure/values", Pressure d, uint_val (NumberOfCells d))].

(** ** A test double for the pipeline and a small snapshot *)

(** A pipeline that answers every call with the same status and counts the
    calls it has received. *)
Record fake_pipeline := mk_fake {
  reply : catalyst_status;
  received : nat
}.

Definition fake_entry (_ : gmap nat node) (_ : gmap Z Byte.byte) (_ : conduit_node)
  (p : fake_pipeline) : catalyst_status * fake_pipeline :=
  (reply p, mk_fake (reply p) (S (received p))).

#[global] Instance fake_catalyst : Catalyst fake_pipeline := {|
  pipeline_initialize := fake_entry;
  pipeline_execute := fake_entry;
  pipeline_finalize := fake_entry
|}.

Fixpoint store_bytes (addr : Z) (bs : list Byte.byte) (m : gmap Z Byte.byte)
  : gmap Z Byte.byte :=
  match bs with
  | [] => m
  | b :: bs' => <[addr := b]> (store_bytes (addr + 1) bs' m)
  end.

(** Little-endian binary64 images of 0.0 and 1.0. *)
Definition f64_zero : list Byte.byte :=
  [Byte.x00; Byte.x00; Byte.x00; Byte.x00; Byte.x00; Byte.x00; Byte.x00; Byte.x00].
Definition f64_one : list Byte.byte :=
  [Byte.x00; Byte.x00; Byte.x00; Byte.x00; Byte.x00; Byte.x00; Byte.xf0; Byte.x3f].

(** The unit square: points (0,0,0), (1,0,0), (1,1,0), (0,1,0) stored
    interleaved at address 4096. *)
Definition square_memory : gmap Z Byte.byte :=
  store_bytes 4096
    (concat [f64_zero; f64_zero; f64_zero;
             f64_one; f64_zero; f64_zero;
             f64_one; f64_one; f64_zero;
             f64_zero; f64_one; f64_zero]) ∅.

(** One cell over the unit square (4 points, 1 cell, 4 indices); the
    arrays are those of a quad, and [dims] is what the caller declares. *)
Definition square (dims : int) : CatalystData :=
  mk_CatalystData dims (mk_uint 4 eq_refl) (mk_uint 1 eq_refl) (mk_uint 4 eq_refl)
    4096 8192 12288 12296 12304 12312.

Definition two : int := mk_int 2 eq_refl.
Definition three : int := mk_int 3 eq_refl.
Definition five : int := mk_int 5 eq_refl.

(** A process that has created no node and made no call, with a pipeline
    that will answer [status]. *)
Definition fresh_process (status : catalyst_status) : @state fake_pipeline :=
  mk_state ∅ square_memory EmptyString (mk_fake status 0) [].

(** Three cycles over the unit square. *)
Definition three_cycles : list (int * float * CatalystData) :=
  [(two, (0.25)%float, square two); (three, (0.5)%float, square two);
   (five, (0.75)%float, square three)].

(** ** Symbolic execution of the primitives *)

Section Execution.

Context {pipeline : Type} `{Catalyst pipeline}.
Implicit Types (s : @state pipeline) (n m : conduit_node) (t : node).

Lemma in_range_spec lo hi z : in_range lo hi z = true <-> lo <= z < hi.
Proof. unfold in_range. rewrite andb_true_iff, Z.leb_le, Z.ltb_lt. tauto. Qed.

Lemma uint_bounds (u : uint) : 0 <= uint_val u < 2 ^ 32.
Proof. apply in_range_spec, uint_ok. Qed.

Lemma int_bounds (i : int) : - 2 ^ 31 <= int_val i < 2 ^ 31.
Proof. apply in_range_spec, int_ok. Qed.

Lemma to_int64_small z : - 2 ^ 63 <= z < 2 ^ 63 -> to_int64 z = z.
Proof. intros Hz. unfold to_int64. rewrite Z.mod_small; lia. Qed.

Lemma to_int64_uint (u : uint) : to_int64 (uint_val u) = uint_val u.
Proof. apply to_int64_small. pose proof (uint_bounds u). lia. Qed.

Lemma to_int64_int (i : int) : to_int64 (int_val i) = int_val i.
Proof. apply to_int64_small. pose proof (int_bounds i). lia. Qed.

Lemma set_node_set_node n t t' s : set_node n t (set_node n t' s) = set_node n t s.
Proof. unfold set_node; simpl. by rewrite insert_insert_eq. Qed.

Lemma set_node_commute n m t t' s :
  n ≠ m -> set_node n t (set_node m t' s) = set_node m t' (set_node n t s).
Proof. intros Hne. unfold set_node; simpl. by rewrite insert_insert_ne. Qed.

Lemma bind_create {B} (k : conduit_node -> M B) s :
  (conduit_node_create ≫= k) s =
  k (fresh (dom (nodes s))) (set_node (fresh (dom (nodes s))) Empty s).
Proof. reflexivity. Qed.

Lemma bind_update_top {B} n f (k : unit -> M B) t s :
  (update_node n f ≫= k) (set_node n t s) = k tt (set_node n (f t) s).
Proof.
  unfold mbind, M_bind, update_node; simpl.
  by rewrite lookup_insert_eq, set_node_set_node.
Qed.

Lemma bind_update_under {B} n m f (k : unit -> M B) t t' s :
  n ≠ m ->
  (update_node n f ≫= k) (set_node m t' (set_node n t s)) =
  k tt (set_node m t' (set_node n (f t) s)).
Proof.
  intros Hne. rewrite (set_node_commute m n) by done.
  rewrite bind_update_top. by rewrite (set_node_commute n m).
Qed.

Lemma fresh_node s : nodes s !! fresh (dom (nodes s)) = None.
Proof. apply not_elem_of_dom, is_fresh. Qed.

End Execution.

(** ** What each entry point does, in closed form *)

Create Rewrite HintDb conduit_steps.

Section Runs.

Context {pipeline : Type} `{Catalyst pipeline}.
Implicit Types (s : @state pipeline) (n m : conduit_node) (t : node).

Lemma bind_call {B} e f n (k : catalyst_status -> M B) s t :
  nodes s !! n = Some t ->
  (call_pipeline e f n ≫= k) s =
  k (fst (f (nodes s) (memory s) n (backend s)))
    (record_call (mk_call e n (nodes s)) (snd (f (nodes s) (memory s) n (backend s))) s).
Proof. intros Hn. unfold mbind, M_bind, call_pipeline. by rewrite Hn. Qed.

Lemma bind_destroy {B} n (k : unit -> M B) s t :
  nodes s !! n = Some t -> (conduit_node_destroy n ≫= k) s = k tt (drop_node n s).
Proof. intros Hn. unfold mbind, M_bind, conduit_node_destroy. by rewrite Hn. Qed.

Lemma run_destroy n s t :
  nodes s !! n = Some t -> conduit_node_destroy n s = Returns tt (drop_node n s).
Proof. intros Hn. unfold conduit_node_destroy. by rewrite Hn. Qed.

Lemma bind_link {B} n m path (k : unit -> M B) t t' s :
  n ≠ m ->
  (conduit_node_set_path_external_node n path m ≫= k) (set_node m t' (set_node n t s)) =
  k tt (set_node m t' (set_node n (node_set (split_path path) (external_node m) t) s)).
Proof.
  intros Hne. rewrite <- (bind_update_under n m _ k t t' s Hne).
  unfold mbind, M_bind, conduit_node_set_path_external_node; simpl.
  by rewrite lookup_insert_eq.
Qed.

Lemma bind_log_status {B} fmt err (k : unit -> M B) s :
  ((if negb (err =? catalyst_status_ok) then printf (fmt +:+ LF) err else mret tt) ≫= k) s =
  k tt (log_status fmt err s).
Proof. unfold log_status. by destruct (negb _). Qed.

Lemma run_log_status fmt err s :
  (if negb (err =? catalyst_status_ok) then printf (fmt +:+ LF) err else mret tt) s =
  Returns tt (log_status fmt err s).
Proof. unfold log_status. by destruct (negb _). Qed.

Lemma drop_log_status fmt err n s :
  drop_node n (log_status fmt err s) = log_status fmt err (drop_node n s).
Proof. unfold log_status. by destruct (negb _). Qed.

Lemma nodes_log_status fmt err s : nodes (log_status fmt err s) = nodes s.
Proof. unfold log_status. by destruct (negb _). Qed.

Lemma drop_record_call n c b s :
  drop_node n (record_call c b s) = record_call c b (drop_node n s).
Proof. reflexivity. Qed.

Lemma drop_set_fresh n t s : nodes s !! n = None -> drop_node n (set_node n t s) = s.
Proof.
  intros Hn. destruct s. unfold drop_node, set_node; simpl in *.
  by rewrite delete_insert_eq, delete_id.
Qed.

Lemma drop_set_other n m t s :
  n ≠ m -> drop_node n (set_node m t s) = set_node m t (drop_node n s).
Proof.
  intros Hne. unfold drop_node, set_node; simpl.
  by rewrite delete_insert_ne.
Qed.

Lemma exec_handle_fresh s : nodes s !! exec_handle s = None.
Proof. apply fresh_node. Qed.

Lemma mesh_handle_fresh s : nodes s !! mesh_handle s = None /\ exec_handle s ≠ mesh_handle s.
Proof.
  pose proof (is_fresh ({[exec_handle s]} ∪ dom (nodes s))) as Hf.
  fold (mesh_handle s) in Hf.
  apply not_elem_of_union in Hf as [Hf1 Hf2].
  split; [by apply not_elem_of_dom | ].
  intros Heq. apply Hf1, elem_of_singleton. symmetry. exact Heq.
Qed.

Lemma bind_set_char8_str {B} n path v (k : unit -> M B) t s :
  (conduit_node_set_path_char8_str n path v ≫= k) (set_node n t s) =
  k tt (set_node n (node_set (split_path path) (char8_str v) t) s).
Proof. apply bind_update_top. Qed.

Lemma bind_set_int64 {B} n path v (k : unit -> M B) t s :
  (conduit_node_set_path_int64 n path v ≫= k) (set_node n t s) =
  k tt (set_node n (node_set (split_path path) (int64 (to_int64 v)) t) s).
Proof. apply bind_update_top. Qed.

Lemma bind_set_float64 {B} n path v (k : unit -> M B) t s :
  (conduit_node_set_path_float64 n path v ≫= k) (set_node n t s) =
  k tt (set_node n (node_set (split_path path) (float64 v) t) s).
Proof. apply bind_update_top. Qed.

Lemma bind_set_external_float64_detailed {B} n path p len off str eb en (k : unit -> M B) t s :
  (conduit_node_set_path_external_float64_ptr_detailed n path p len off str eb en ≫= k)
    (set_node n t s) =
  k tt (set_node n (node_set (split_path path)
          (external_array float64_id
             (mk_view p (to_int64 len) (to_int64 off) (to_int64 str) (to_int64 eb) (to_int64 en)))
          t) s).
Proof. apply bind_update_top. Qed.

Lemma bind_set_external_float64 {B} n path p len (k : unit -> M B) t s :
  (conduit_node_set_path_external_float64_ptr n path p len ≫= k) (set_node n t s) =
  k tt (set_node n (node_set (split_path path)
          (external_array float64_id (mk_view p (to_int64 len) 0 8 8 0)) t) s).
Proof. apply bind_update_top. Qed.

Lemma bind_set_external_int64 {B} n path p len (k : unit -> M B) t s :
  (conduit_node_set_path_external_int64_ptr n path p len ≫= k) (set_node n t s) =
  k tt (set_node n (node_set (split_path path)
          (external_array int64_id (mk_view p (to_int64 len) 0 8 8 0)) t) s).
Proof. apply bind_update_top. Qed.

#[local] Hint Rewrite @bind_set_char8_str @bind_set_int64 @bind_set_float64
  @bind_set_external_float64_detailed @bind_set_external_float64
  @bind_set_external_int64 : conduit_steps.

Lemma do_catalyst_initialization_run s :
  let h := fresh (dom (nodes s)) in
  let store := <[h := init_description]> (nodes s) in
  let r := pipeline_initialize store (memory s) h (backend s) in
  do_catalyst_initialization s =
  Returns tt (log_status "Failed to initialize Catalyst: %d" (fst r)
                (record_call (mk_call Initialize h store) (snd r) s)).
Proof.
  intros h store r. unfold do_catalyst_initialization.
  rewrite bind_create. fold h.
  autorewrite with conduit_steps.
  match goal with |- context [set_node h ?t s] => change t with init_description end.
  unfold catalyst_initialize.
  erewrite bind_call by apply lookup_insert_eq.
  erewrite bind_destroy by apply lookup_insert_eq.
  rewrite run_log_status, drop_record_call, drop_set_fresh by apply fresh_node.
  reflexivity.
Qed.

Lemma do_catalyt_finalization_run s :
  let h := fresh (dom (nodes s)) in
  let store := <[h := Empty]> (nodes s) in
  let r := pipeline_finalize store (memory s) h (backend s) in
  do_catalyt_finalization s =
  Returns tt (log_status "Failed to execute Catalyst: %d" (fst r)
                (record_call (mk_call Finalize h store) (snd r) s)).
Proof.
  intros h store r. unfold do_catalyt_finalization, catalyst_finalize.
  rewrite bind_create. fold h.
  erewrite bind_call by apply lookup_insert_eq.
  rewrite bind_log_status.
  erewrite run_destroy by (rewrite nodes_log_status; apply lookup_insert_eq).
  rewrite drop_log_status, drop_record_call, drop_set_fresh by apply fresh_node.
  reflexivity.
Qed.

Lemma select_shape (d : CatalystData) (shape : string) (mesh : conduit_node) :
  shape_of d = Some shape ->
  (if int_val (dimensions d) =? 2 then
     conduit_node_set_path_char8_str mesh "topologies/mesh/elements/shape" "quad"
   else if int_val (dimensions d) =? 3 then
     conduit_node_set_path_char8_str mesh "topologies/mesh/elements/shape" "hex"
   else
     printf "Error, incorrect dimensions %d " (int_val (dimensions d));;
     exit 1) =
  conduit_node_set_path_char8_str (pipeline := pipeline) mesh "topologies/mesh/elements/shape" shape.
Proof.
  unfold shape_of. intros Hs.
  destruct (int_val (dimensions d) =? 2); [congruence | ].
  destruct (int_val (dimensions d) =? 3); congruence.
Qed.

Lemma do_catalyt_execute_run s cycle time d shape :
  shape_of d = Some shape ->
  let exec := exec_handle s in
  let mesh := mesh_handle s in
  let store := <[mesh := mesh_description d shape]>
                 (<[exec := exec_description cycle time (Some mesh)]> (nodes s)) in
  let r := pipeline_execute store (memory s) exec (backend s) in
  do_catalyt_execute cycle time d s =
  Returns tt (log_status "Failed to execute Catalyst: %d" (fst r)
                (record_call (mk_call Execute exec store) (snd r) s)).
Proof.
  intros Hshape exec mesh store r.
  destruct (mesh_handle_fresh s) as [Hmesh Hne]. fold exec mesh in Hmesh, Hne.
  unfold do_catalyt_execute.
  rewrite bind_create. fold (exec_handle s). fold exec.
  autorewrite with conduit_steps.
  rewrite bind_create.
  unfold set_node at 2 4; simpl nodes. rewrite dom_insert_L.
  change (fresh ({[exec]} ∪ dom (nodes s))) with mesh.
  autorewrite with conduit_steps.
  rewrite (select_shape _ _ _ Hshape).
  autorewrite with conduit_steps.
  rewrite !to_int64_uint, to_int64_int.
  change (fresh ({[exec]} ∪ dom (nodes s))) with mesh.
  match goal with
  | |- context [set_node mesh ?t (set_node exec ?e s)] =>
      change t with (mesh_description d shape);
      change e with (exec_description cycle time None)
  end.
  rewrite bind_link by done.
  match goal with
  | |- context [set_node exec ?e s] =>
      change e with (exec_description cycle time (Some mesh))
  end.
  unfold catalyst_execute.
  erewrite bind_call by (simpl; rewrite lookup_insert_ne by done; apply lookup_insert_eq).
  rewrite bind_log_status.
  erewrite bind_destroy
    by (rewrite nodes_log_status; simpl; rewrite lookup_insert_ne by done; apply lookup_insert_eq).
  erewrite run_destroy
    by (simpl; rewrite nodes_log_status; simpl;
        rewrite lookup_delete_ne by done; apply lookup_insert_eq).
  rewrite !drop_log_status, !drop_record_call.
  rewrite (drop_set_other exec mesh) by done.
  rewrite (drop_set_fresh exec) by apply exec_handle_fresh.
  rewrite (drop_set_fresh mesh) by done.
  reflexivity.
Qed.

Lemma do_catalyt_execute_exit s cycle time d :
  shape_of d = None ->
  let exec := exec_handle s in
  let mesh := mesh_handle s in
  do_catalyt_execute cycle time d s =
  Exits 1 (write_stdout (format_d "Error, incorrect dimensions %d " (int_val (dimensions d)))
             (set_node mesh (partial_mesh_description d)
                (set_node exec (exec_description cycle time None) s))).
Proof.
  intros Hshape exec mesh.
  unfold do_catalyt_execute.
  rewrite bind_create. fold (exec_handle s). fold exec.
  autorewrite with conduit_steps.
  rewrite bind_create.
  unfold set_node at 2 4; simpl nodes. rewrite dom_insert_L.
  change (fresh ({[exec]} ∪ dom (nodes s))) with mesh.
  autorewrite with conduit_steps.
  rewrite !to_int64_uint, to_int64_int.
  match goal with
  | |- context [set_node mesh ?t (set_node exec ?e s)] =>
      change t with (partial_mesh_description d);
      change e with (exec_description cycle time None)
  end.
  unfold shape_of in Hshape.
  destruct (int_val (dimensions d) =? 2); [discriminate | ].
  destruct (int_val (dimensions d) =? 3); [discriminate | ].
  reflexivity.
Qed.

End Runs.

#[global] Hint Rewrite @bind_set_char8_str @bind_set_int64 @bind_set_float64
  @bind_set_external_float64_detailed @bind_set_external_float64
  @bind_set_external_int64 : conduit_steps.

(** ** Facts about Conduit trees *)

Lemma update_child_idem k f cs :
  (forall c, f (f c) = f c) ->
  update_child k f (update_child k f cs) = update_child k f cs.
Proof.
  intros Hf. induction cs as [ | [k' c] cs IH]; simpl.
  - rewrite String.eqb_refl. by rewrite Hf.
  - destruct (String.eqb k k') eqn:Hk; simpl; rewrite Hk.
    + by rewrite Hf.
    + by rewrite IH.
Qed.

Lemma node_set_idem p v t : node_set p v (node_set p v t) = node_set p v t.
Proof.
  revert t. induction p as [ | k p IH]; intros t; simpl; [done | ].
  f_equal. by apply update_child_idem.
Qed.

(** ** Addressing through a strided view *)

Lemma view_element_interleaved m p len a i :
  0 <= i < len ->
  view_element m (mk_view p len (8 * a) 24 8 0) i = c_index m p (3 * i + a).
Proof.
  intros Hi. unfold view_element, c_index, sizeof_double; simpl.
  replace ((0 <=? i) && (i <? len)) with true
    by (symmetry; apply andb_true_iff; split; [apply Z.leb_le | apply Z.ltb_lt]; lia).
  f_equal. lia.
Qed.

(** ** The submission made by a valid cycle *)

Section Submission.

Context {pipeline : Type} `{Catalyst pipeline}.
Implicit Types (s : @state pipeline).

Lemma calls_log_status fmt err s : calls (log_status fmt err s) = calls s.
Proof. unfold log_status. by destruct (negb _). Qed.

Lemma memory_log_status fmt err s : memory (log_status fmt err s) = memory s.
Proof. unfold log_status. by destruct (negb _). Qed.

Lemma submitted_mesh_linked e (exec mesh : conduit_node) cycle time tree (ns : gmap nat node) :
  exec ≠ mesh ->
  submitted_mesh
    (mk_call e exec (<[mesh := tree]> (<[exec := exec_description cycle time (Some mesh)]> ns))) =
  Some (mesh, tree).
Proof.
  intros Hne. unfold submitted_mesh; simpl live; simpl params.
  rewrite lookup_insert_ne by done. rewrite (lookup_insert_eq ns exec).
  change (fetch_path "catalyst/channels/grid/data" (exec_description cycle time (Some mesh)))
    with (Some (Leaf (external_node mesh))).
  cbv beta iota. by rewrite lookup_insert_eq.
Qed.

(** A cycle with a valid [dimensions] returns after one call of the execute
    entry point; everything the claims say about that call follows from the
    facts collected here. *)
Lemma execute_submits s cycle time d shape :
  shape_of d = Some shape ->
  exists s' c,
    do_catalyt_execute cycle time d s = Returns tt s' /\
    calls s' = calls s ++ [c] /\
    entry c = Execute /\
    params c = exec_handle s /\
    live c = <[mesh_handle s := mesh_description d shape]>
               (<[exec_handle s := exec_description cycle time (Some (mesh_handle s))]> (nodes s)) /\
    submitted_mesh c = Some (mesh_handle s, mesh_description d shape) /\
    nodes s' = nodes s /\
    memory s' = memory s /\
    s' = log_status "Failed to execute Catalyst: %d"
           (fst (pipeline_execute (live c) (memory s) (params c) (backend s)))
           (record_call c (snd (pipeline_execute (live c) (memory s) (params c) (backend s))) s).
Proof.
  intros Hshape. eexists _, _. split; [by apply do_catalyt_execute_run | ].
  rewrite calls_log_status, nodes_log_status, memory_log_status. simpl.
  repeat split.
  apply submitted_mesh_linked, mesh_handle_fresh.
Qed.

Lemma shape_of_cases d :
  (int_val (dimensions d) = 2 /\ shape_of d = Some "quad") \/
  (int_val (dimensions d) = 3 /\ shape_of d = Some "hex") \/
  (int_val (dimensions d) ≠ 2 /\ int_val (dimensions d) ≠ 3 /\ shape_of d = None).
Proof.
  unfold shape_of.
  destruct (Z.eqb_spec (int_val (dimensions d)) 2); [by left | ].
  destruct (Z.eqb_spec (int_val (dimensions d)) 3); [by right; left | by right; right].
Qed.

End Submission.

(** ** The claims *)

(** C1. Whatever the snapshot, the Builder builds a mesh whose three
    coordinate entries x, y and z are float64 views of the points array with
    [NumberOfPoints] elements of 8 bytes, 24 bytes apart, starting 0, 8 and
    16 bytes into it; element [i] of the view of axis [a] is [Points[3*i+a]]. *)
Theorem coordinate_views {pipeline : Type} `{Catalyst pipeline}
  (s : @state pipeline) (cycle : int) (time : float) (d : CatalystData) :
  exists m tree,
    built s (do_catalyt_execute cycle time d s) m tree /\
    forall name a, In (name, a) axes ->
      exists v,
        is_float64_view tree ("coordsets/coords/values/" +:+ name) v /\
        data v = Points d /\
        num_elements v = uint_val (NumberOfPoints d) /\
        element_bytes v = 8 /\
        stride v = 24 /\
        offset v = 8 * a /\
        forall i, 0 <= i < uint_val (NumberOfPoints d) ->
          view_element (memory s) v i = c_index (memory s) (Points d) (3 * i + a).
Proof.
  assert (Hviews : forall shape name a, In (name, a) axes ->
    exists v,
      (is_float64_view (mesh_description d shape) ("coordsets/coords/values/" +:+ name) v /\
       is_float64_view (partial_mesh_description d) ("coordsets/coords/values/" +:+ name) v) /\
      data v = Points d /\
      num_elements v = uint_val (NumberOfPoints d) /\
      element_bytes v = 8 /\ stride v = 24 /\ offset v = 8 * a /\
      forall i, 0 <= i < uint_val (NumberOfPoints d) ->
        view_element (memory s) v i = c_index (memory s) (Points d) (3 * i + a)).
  { intros shape name a Hin.
    exists (mk_view (Points d) (uint_val (NumberOfPoints d)) (8 * a) 24 8 0).
    split; [ | repeat split; intros i Hi; by apply view_element_interleaved].
    simpl in Hin.
    destruct Hin as [Hin | [Hin | [Hin | []]]]; inversion Hin; subst; split; reflexivity. }
  destruct (shape_of d) as [shape | ] eqn:Hshape.
  - destruct (execute_submits s cycle time d shape Hshape)
      as (s' & c & Hrun & Hcalls & Hentry & _ & _ & Hmesh & _).
    exists (mesh_handle s), (mesh_description d shape). split.
    + rewrite Hrun. simpl. by exists c.
    + intros name a Hin. destruct (Hviews shape name a Hin) as (v & [Hv _] & Hrest).
      by exists v.
  - exists (mesh_handle s), (partial_mesh_description d). split.
    + rewrite do_catalyt_execute_exit by done. simpl. apply lookup_insert_eq.
    + intros name a Hin. destruct (Hviews EmptyString name a Hin) as (v & [_ Hv] & Hrest).
      by exists v.
Qed.

(** C1, on the unit square with a pipeline that fails: the x view reads
    0, 1, 1, 0, the x components of the four points. *)
Lemma coordinate_views_witness :
  exists m tree v,
    built (fresh_process 3) (do_catalyt_execute five (0.5)%float (square two) (fresh_process 3))
      m tree /\
    is_float64_view tree "coordsets/coords/values/x" v /\
    view_element square_memory v 0 = Some f64_zero /\
    view_element square_memory v 1 = Some f64_one /\
    view_element square_memory v 2 = Some f64_one /\
    view_element square_memory v 3 = Some f64_zero /\
    view_element square_memory v 2 = c_index square_memory 4096 6.
Proof.
  destruct (coordinate_views (fresh_process 3) five (0.5)%float (square two))
    as (m & tree & Hbuilt & Hviews).
  destruct (Hviews "x" 0 (or_introl eq_refl)) as (v & Hv & Hdata & Hlen & Hbytes & Hstride & Hoff & Hel).
  exists m, tree, v. split; [exact Hbuilt | ]. split; [exact Hv | ].
  rewrite !Hel by (simpl; lia).
  vm_compute. repeat split.
Defined.

(** C2. With [dimensions] 2 the submitted mesh carries the element shape
    "quad", with 3 it carries "hex"; with any other value the process exits
    with code 1 and the pipeline has received no call from this cycle. *)
Theorem element_shape {pipeline : Type} `{Catalyst pipeline}
  (s : @state pipeline) (cycle : int) (time : float) (d : CatalystData) :
  (forall shape,
     (int_val (dimensions d) = 2 /\ shape = "quad"%string) \/
     (int_val (dimensions d) = 3 /\ shape = "hex"%string) ->
     exists s' c m tree,
       do_catalyt_execute cycle time d s = Returns tt s' /\
       calls s' = calls s ++ [c] /\ entry c = Execute /\
       submitted_mesh c = Some (m, tree) /\
       fetch_path "topologies/mesh/elements/shape" tree = Some (Leaf (char8_str shape))) /\
  (int_val (dimensions d) ≠ 2 -> int_val (dimensions d) ≠ 3 ->
     exists code s',
       do_catalyt_execute cycle time d s = Exits code s' /\
       code ≠ 0 /\ calls s' = calls s /\ backend s' = backend s).
Proof.
  split.
  - intros shape Hdims.
    assert (Hshape : shape_of d = Some shape).
    { unfold shape_of. destruct Hdims as [[-> ->] | [-> ->]]; reflexivity. }
    destruct (execute_submits s cycle time d shape Hshape)
      as (s' & c & Hrun & Hcalls & Hentry & _ & _ & Hmesh & _).
    exists s', c, (mesh_handle s), (mesh_description d shape).
    repeat split; done.
  - intros H2 H3.
    destruct (shape_of_cases d) as [[? _] | [[? _] | (_ & _ & Hshape)]]; [done | done | ].
    eexists 1, _. split; [by apply do_catalyt_execute_exit | ].
    by repeat split.
Qed.

(** C2 on the unit square: a quad for 2, a hex for 3, and exit code 1 with
    no call made for 5. *)
Lemma element_shape_witness :
  (exists s' c m tree,
     do_catalyt_execute five (0.5)%float (square two) (fresh_process 0) = Returns tt s' /\
     calls s' = [c] /\ submitted_mesh c = Some (m, tree) /\
     fetch_path "topologies/mesh/elements/shape" tree = Some (Leaf (char8_str "quad"))) /\
  (exists s' c m tree,
     do_catalyt_execute five (0.5)%float (square three) (fresh_process 0) = Returns tt s' /\
     calls s' = [c] /\ submitted_mesh c = Some (m, tree) /\
     fetch_path "topologies/mesh/elements/shape" tree = Some (Leaf (char8_str "hex"))) /\
  (exists s',
     do_catalyt_execute five (0.5)%float (square five) (fresh_process 0) = Exits 1 s' /\
     calls s' = [] /\ received (backend s') = 0%nat).
Proof.
  split; [ | split].
  - destruct (proj1 (element_shape (fresh_process 0) five (0.5)%float (square two)) "quad"%string)
      as (s' & c & m & tree & Hrun & Hcalls & _ & Hmesh & Hshape);
      [left; split; reflexivity | ].
    exists s', c, m, tree. exact (conj Hrun (conj Hcalls (conj Hmesh Hshape))).
  - destruct (proj1 (element_shape (fresh_process 0) five (0.5)%float (square three)) "hex"%string)
      as (s' & c & m & tree & Hrun & Hcalls & _ & Hmesh & Hshape);
      [right; split; reflexivity | ].
    exists s', c, m, tree. exact (conj Hrun (conj Hcalls (conj Hmesh Hshape))).
  - destruct (proj2 (element_shape (fresh_process 0) five (0.5)%float (square five)))
      as (code & s' & Hrun & Hcode & Hcalls & Hbackend); [simpl; lia | simpl; lia | ].
    exists s'. rewrite Hcalls, Hbackend. split; [ | split; reflexivity].
    rewrite Hrun. rewrite do_catalyt_execute_exit in Hrun by reflexivity.
    inversion Hrun. reflexivity.
Defined.

Lemma view_element_contiguous m p len i :
  0 <= i < len ->
  view_element m (mk_view p len 0 8 8 0) i = c_index m p i.
Proof.
  intros Hi. unfold view_element, c_index, sizeof_double; simpl.
  replace ((0 <=? i) && (i <? len)) with true
    by (symmetry; apply andb_true_iff; split; [apply Z.leb_le | apply Z.ltb_lt]; lia).
  f_equal. lia.
Qed.

(** C3. For an internally consistent snapshot the connectivity entry of
    the submitted mesh is an external int64 view of [Cells]: nothing is
    copied, element [k] is [Cells[k]], and its length is [Cell2VertexSize],
    which is [NumberOfCells] times 4 for a quad and times 8 for a hex. *)
Theorem connectivity_view {pipeline : Type} `{Catalyst pipeline}
  (s : @state pipeline) (cycle : int) (time : float) (d : CatalystData) :
  internally_consistent d ->
  exists s' c m tree v shape vpc,
    do_catalyt_execute cycle time d s = Returns tt s' /\
    calls s' = calls s ++ [c] /\ entry c = Execute /\
    submitted_mesh c = Some (m, tree) /\
    fetch_path "topologies/mesh/elements/connectivity" tree =
      Some (Leaf (external_array int64_id v)) /\
    data v = Cells d /\ offset v = 0 /\ stride v = 8 /\ element_bytes v = 8 /\
    num_elements v = uint_val (Cell2VertexSize d) /\
    num_elements v = uint_val (NumberOfCells d) * vpc /\
    fetch_path "topologies/mesh/elements/shape" tree = Some (Leaf (char8_str shape)) /\
    ((shape = "quad"%string /\ vpc = 4) \/ (shape = "hex"%string /\ vpc = 8)) /\
    forall k, 0 <= k < num_elements v ->
      view_element (memory s) v k = c_index (memory s) (Cells d) k.
Proof.
  intros (vpc & Hvpc & Hsize).
  assert (Hshape : exists shape, shape_of d = Some shape /\
            ((shape = "quad"%string /\ vpc = 4) \/ (shape = "hex"%string /\ vpc = 8))).
  { unfold verticesPerCell in Hvpc. unfold shape_of.
    destruct (int_val (dimensions d) =? 2); [exists "quad"%string; split; [done | left]; by inversion Hvpc | ].
    destruct (int_val (dimensions d) =? 3); [exists "hex"%string; split; [done | right]; by inversion Hvpc | ].
    discriminate. }
  destruct Hshape as (shape & Hshape & Hcase).
  destruct (execute_submits s cycle time d shape Hshape)
    as (s' & c & Hrun & Hcalls & Hentry & _ & _ & Hmesh & _).
  exists s', c, (mesh_handle s), (mesh_description d shape),
    (mk_view (Cells d) (uint_val (Cell2VertexSize d)) 0 8 8 0), shape, vpc.
  repeat split; try done.
  intros k Hk. by apply view_element_contiguous.
Qed.

(** C3 on the unit square: one quad, four connectivity entries. *)
Lemma connectivity_view_witness :
  exists s' c m tree v,
    do_catalyt_execute five (0.5)%float (square two) (fresh_process 0) = Returns tt s' /\
    submitted_mesh c = Some (m, tree) /\
    fetch_path "topologies/mesh/elements/connectivity" tree =
      Some (Leaf (external_array int64_id v)) /\
    data v = 8192 /\ num_elements v = 4 /\ num_elements v = 1 * 4.
Proof.
  assert (Hok : internally_consistent (square two)) by (exists 4; split; reflexivity).
  destruct (connectivity_view (fresh_process 0) five (0.5)%float (square two) Hok)
    as (s' & c & m & tree & v & shape & vpc & Hrun & _ & _ & Hmesh & Hconn & Hdata & _ & _ & _ &
        Hlen & _).
  exists s', c, m, tree, v.
  split; [exact Hrun | ]. split; [exact Hmesh | ]. split; [exact Hconn | ].
  split; [exact Hdata | ]. rewrite Hlen. split; reflexivity.
Defined.

Lemma valid_dimensions_shape d : valid_dimensions d -> exists shape, shape_of d = Some shape.
Proof.
  unfold valid_dimensions, shape_of. intros [-> | ->]; eexists; reflexivity.
Qed.

(** C4, as stated, fails: with [dimensions] 5 the process exits with the
    mesh holding coordinates and topology only; no field entry was created
    and nothing was submitted. *)
Lemma cell_fields_counterexample :
  exists s' m tree,
    do_catalyt_execute five (0.5)%float (square five) (fresh_process 0) = Exits 1 s' /\
    built (fresh_process 0) (Exits 1 s') m tree /\
    map fst (children tree) = ["coordsets"; "topologies"]%string /\
    fetch_path "fields" tree = None /\
    calls s' = [].
Proof.
  eexists _, (mesh_handle (fresh_process 0)), (partial_mesh_description (square five)).
  split; [by apply do_catalyt_execute_exit | ].
  split; [apply lookup_insert_eq | ].
  split; [reflexivity | split; reflexivity].
Qed.

(** C4, amended. For a snapshot with [dimensions] 2 or 3 the submitted mesh
    has exactly the four field entries velx, vely, velz and pressure, in this
    order; each has the tags association = "element", topology = "mesh" and
    volume_dependent = "false", and its values are an external float64 view
    of the snapshot array, [NumberOfCells] long, whose element [k] is the
    array's element [k]. *)
Theorem cell_fields_on_valid_dimensions {pipeline : Type} `{Catalyst pipeline}
  (s : @state pipeline) (cycle : int) (time : float) (d : CatalystData) :
  valid_dimensions d ->
  exists s' c m tree,
    do_catalyt_execute cycle time d s = Returns tt s' /\
    calls s' = calls s ++ [c] /\ entry c = Execute /\
    submitted_mesh c = Some (m, tree) /\
    child_names "fields" tree = Some (map fst (cell_fields d)) /\
    forall name p, In (name, p) (cell_fields d) ->
      is_cell_field tree name p (uint_val (NumberOfCells d)) /\
      forall k, 0 <= k < uint_val (NumberOfCells d) ->
        view_element (memory s)
          (mk_view p (uint_val (NumberOfCells d)) 0 8 8 CONDUIT_ENDIANNESS_DEFAULT_ID) k =
        c_index (memory s) p k.
Proof.
  intros Hdims. destruct (valid_dimensions_shape d Hdims) as [shape Hshape].
  destruct (execute_submits s cycle time d shape Hshape)
    as (s' & c & Hrun & Hcalls & Hentry & _ & _ & Hmesh & _).
  exists s', c, (mesh_handle s), (mesh_description d shape).
  do 4 (split; [assumption | ]). split; [reflexivity | ].
  intros name p Hin. split; [ | intros k Hk; by apply view_element_contiguous].
  simpl in Hin.
  destruct Hin as [Hin | [Hin | [Hin | [Hin | []]]]]; inversion Hin; subst;
    repeat split; reflexivity.
Qed.

(** The amended C4 on the unit square: four fields, the pressure values at
    address 12312 with one element. *)
Lemma cell_fields_witness :
  exists s' c m tree,
    do_catalyt_execute five (0.5)%float (square two) (fresh_process 0) = Returns tt s' /\
    submitted_mesh c = Some (m, tree) /\
    child_names "fields" tree = Some ["velx"; "vely"; "velz"; "pressure"]%string /\
    is_cell_field tree "pressure" 12312 1.
Proof.
  destruct (cell_fields_on_valid_dimensions (fresh_process 0) five (0.5)%float (square two))
    as (s' & c & m & tree & Hrun & _ & _ & Hmesh & Hnames & Hfields); [left; reflexivity | ].
  exists s', c, m, tree.
  split; [exact Hrun | ]. split; [exact Hmesh | ]. split; [exact Hnames | ].
  exact (proj1 (Hfields "pressure"%string 12312 (or_intror (or_intror (or_intror (or_introl eq_refl)))))).
Defined.

(** C5. A cycle that submits hands the execute entry point parameters that
    hold the int64 [cycle] at catalyst/state/timestep, the float64 [time] at
    catalyst/state/time, the string "mesh" at catalyst/channels/grid/type and,
    at catalyst/channels/grid/data, the link to the mesh built in this call.
    A cycle with a valid [dimensions] submits exactly once; any other submits
    nothing. *)
Theorem execution_parameters {pipeline : Type} `{Catalyst pipeline}
  (s : @state pipeline) (cycle : int) (time : float) (d : CatalystData) :
  (valid_dimensions d ->
   exists s' c exec_tree m shape,
     do_catalyt_execute cycle time d s = Returns tt s' /\
     calls s' = calls s ++ [c] /\ entry c = Execute /\
     live c !! params c = Some exec_tree /\
     fetch_path "catalyst/state/timestep" exec_tree = Some (Leaf (int64 (int_val cycle))) /\
     fetch_path "catalyst/state/time" exec_tree = Some (Leaf (float64 time)) /\
     fetch_path "catalyst/channels/grid/type" exec_tree = Some (Leaf (char8_str "mesh")) /\
     fetch_path "catalyst/channels/grid/data" exec_tree = Some (Leaf (external_node m)) /\
     shape_of d = Some shape /\
     live c !! m = Some (mesh_description d shape)) /\
  (~ valid_dimensions d ->
   exists s', do_catalyt_execute cycle time d s = Exits 1 s' /\ calls s' = calls s).
Proof.
  split.
  - intros Hdims. destruct (valid_dimensions_shape d Hdims) as [shape Hshape].
    destruct (execute_submits s cycle time d shape Hshape)
      as (s' & c & Hrun & Hcalls & Hentry & Hparams & Hlive & Hmesh & _).
    destruct (mesh_handle_fresh s) as [_ Hne].
    exists s', c, (exec_description cycle time (Some (mesh_handle s))), (mesh_handle s), shape.
    do 3 (split; [assumption | ]).
    rewrite Hlive, Hparams.
    split; [rewrite lookup_insert_ne by done; apply lookup_insert_eq | ].
    do 4 (split; [reflexivity | ]).
    split; [assumption | apply lookup_insert_eq].
  - intros Hdims.
    destruct (shape_of_cases d) as [[? _] | [[? _] | (_ & _ & Hshape)]].
    + destruct Hdims. by left.
    + destruct Hdims. by right.
    + eexists. split; [by apply do_catalyt_execute_exit | reflexivity].
Qed.

(** C5 on the unit square, cycle 5, time 0.5. *)
Lemma execution_parameters_witness :
  exists s' c exec_tree m,
    do_catalyt_execute five (0.5)%float (square two) (fresh_process 0) = Returns tt s' /\
    calls s' = [c] /\
    live c !! params c = Some exec_tree /\
    fetch_path "catalyst/state/timestep" exec_tree = Some (Leaf (int64 5)) /\
    fetch_path "catalyst/state/time" exec_tree = Some (Leaf (float64 (0.5)%float)) /\
    fetch_path "catalyst/channels/grid/type" exec_tree = Some (Leaf (char8_str "mesh")) /\
    fetch_path "catalyst/channels/grid/data" exec_tree = Some (Leaf (external_node m)) /\
    live c !! m = Some (mesh_description (square two) "quad").
Proof.
  destruct (proj1 (execution_parameters (fresh_process 0) five (0.5)%float (square two)))
    as (s' & c & exec_tree & m & shape & Hrun & Hcalls & _ & Hlive & Hstep & Htime & Htype &
        Hdata & Hshape & Hmesh); [left; reflexivity | ].
  exists s', c, exec_tree, m.
  inversion Hshape; subst shape.
  exact (conj Hrun (conj Hcalls (conj Hlive (conj Hstep (conj Htime (conj Htype (conj Hdata Hmesh))))))).
Defined.

(** ** Status handling and the lifetime of the descriptions *)

Lemma log_status_reported {pipeline : Type} fmt prefix err (s0 s : @state pipeline) :
  stdout s0 = stdout s ->
  (forall z, format_d (fmt +:+ LF) z = prefix +:+ string_of_Z z +:+ LF) ->
  status_reported prefix err s (log_status fmt err s0).
Proof.
  intros Hout Hfmt. unfold status_reported, log_status. split; intros Herr.
  - destruct (Z.eqb_spec err catalyst_status_ok); [done | ].
    simpl. by rewrite Hout, Hfmt.
  - subst err. simpl. done.
Qed.

(** C6. Each of the three entry points returns whatever status the pipeline
    answers with (the Builder, whenever [dimensions] is valid); it has made
    exactly one call, and the status of that call was checked: a status other
    than ok leaves a line with its number on stdout. *)
Theorem pipeline_status_is_logged {pipeline : Type} `{Catalyst pipeline} (s : @state pipeline) :
  (exists s' c,
     do_catalyst_initialization s = Returns tt s' /\
     calls s' = calls s ++ [c] /\ entry c = Initialize /\
     status_reported "Failed to initialize Catalyst: "
       (fst (pipeline_initialize (live c) (memory s) (params c) (backend s))) s s') /\
  (forall cycle time d, valid_dimensions d ->
   exists s' c,
     do_catalyt_execute cycle time d s = Returns tt s' /\
     calls s' = calls s ++ [c] /\ entry c = Execute /\
     status_reported "Failed to execute Catalyst: "
       (fst (pipeline_execute (live c) (memory s) (params c) (backend s))) s s') /\
  (exists s' c,
     do_catalyt_finalization s = Returns tt s' /\
     calls s' = calls s ++ [c] /\ entry c = Finalize /\
     status_reported "Failed to execute Catalyst: "
       (fst (pipeline_finalize (live c) (memory s) (params c) (backend s))) s s').
Proof.
  split; [ | split].
  - eexists _, _. split; [apply do_catalyst_initialization_run | ].
    rewrite calls_log_status. do 2 (split; [reflexivity | ]).
    by apply log_status_reported.
  - intros cycle time d Hdims. destruct (valid_dimensions_shape d Hdims) as [shape Hshape].
    destruct (execute_submits s cycle time d shape Hshape)
      as (s' & c & Hrun & Hcalls & Hentry & _ & _ & _ & _ & _ & Hs').
    exists s', c. do 3 (split; [assumption | ]).
    rewrite Hs'. by apply log_status_reported.
  - eexists _, _. split; [apply do_catalyt_finalization_run | ].
    rewrite calls_log_status. do 2 (split; [reflexivity | ]).
    by apply log_status_reported.
Qed.

(** C6 with a pipeline that answers 3 to every call: each entry point
    returns and leaves its line on stdout. *)
Lemma pipeline_status_is_logged_witness :
  (exists s',
     do_catalyst_initialization (fresh_process 3) = Returns tt s' /\
     stdout s' = "Failed to initialize Catalyst: 3" +:+ LF) /\
  (exists s',
     do_catalyt_execute five (0.5)%float (square two) (fresh_process 3) = Returns tt s' /\
     stdout s' = "Failed to execute Catalyst: 3" +:+ LF) /\
  (exists s',
     do_catalyt_finalization (fresh_process 3) = Returns tt s' /\
     stdout s' = "Failed to execute Catalyst: 3" +:+ LF).
Proof.
  destruct (pipeline_status_is_logged (fresh_process 3)) as (Hinit & Hexec & Hfini).
  split; [ | split].
  - destruct Hinit as (s' & c & Hrun & _ & _ & Hlog & _).
    exists s'. split; [exact Hrun | ]. apply Hlog. discriminate.
  - destruct (Hexec five (0.5)%float (square two)) as (s' & c & Hrun & _ & _ & Hlog & _);
      [left; reflexivity | ].
    exists s'. split; [exact Hrun | ]. apply Hlog. discriminate.
  - destruct Hfini as (s' & c & Hrun & _ & _ & Hlog & _).
    exists s'. split; [exact Hrun | ]. apply Hlog. discriminate.
Defined.

(** C7. A cycle with a valid [dimensions] returns with both descriptions
    destroyed, whatever the pipeline answered: the parameters and the mesh it
    submitted were created by this call, were live during the call of the
    execute entry point, and are gone at return.  The live nodes are those of
    before the call, and the memory of the simulation is untouched. *)
Theorem descriptions_are_transient {pipeline : Type} `{Catalyst pipeline}
  (s : @state pipeline) (cycle : int) (time : float) (d : CatalystData) :
  valid_dimensions d ->
  exists s' c m tree,
    do_catalyt_execute cycle time d s = Returns tt s' /\
    calls s' = calls s ++ [c] /\ entry c = Execute /\
    submitted_mesh c = Some (m, tree) /\
    params c ≠ m /\
    nodes s !! params c = None /\ nodes s !! m = None /\
    is_Some (live c !! params c) /\ is_Some (live c !! m) /\
    nodes s' !! params c = None /\ nodes s' !! m = None /\
    nodes s' = nodes s /\
    memory s' = memory s.
Proof.
  intros Hdims. destruct (valid_dimensions_shape d Hdims) as [shape Hshape].
  destruct (execute_submits s cycle time d shape Hshape)
    as (s' & c & Hrun & Hcalls & Hentry & Hparams & Hlive & Hmesh & Hnodes & Hmem & _).
  destruct (mesh_handle_fresh s) as [Hfresh Hne].
  exists s', c, (mesh_handle s), (mesh_description d shape).
  do 4 (split; [assumption | ]).
  rewrite Hparams, Hlive, Hnodes.
  split; [assumption | ].
  split; [apply exec_handle_fresh | ]. split; [assumption | ].
  split; [rewrite lookup_insert_ne by done; rewrite lookup_insert_eq; by eexists | ].
  split; [rewrite lookup_insert_eq; by eexists | ].
  split; [apply exec_handle_fresh | ]. by repeat split.
Qed.

(** C7 with a failing pipeline: the cycle returns, no node is live, and the
    points are still in memory. *)
Lemma descriptions_are_transient_witness :
  exists s',
    do_catalyt_execute five (0.5)%float (square two) (fresh_process 3) = Returns tt s' /\
    nodes s' = ∅ /\
    memory s' = square_memory.
Proof.
  destruct (descriptions_are_transient (fresh_process 3) five (0.5)%float (square two))
    as (s' & c & m & tree & Hrun & _ & _ & _ & _ & _ & _ & _ & _ & _ & _ & Hnodes & Hmem);
    [left; reflexivity | ].
  exists s'. exact (conj Hrun (conj Hnodes Hmem)).
Defined.

(** C8. The Initializer submits, on one call of the initialization entry
    point, a description whose leaves are exactly three strings: the script
    at catalyst/scripts/script0, the implementation name at
    catalyst_load/implementation, and the install path at
    catalyst_load/search_paths/ followed by that same name.  The description
    was created by this call and is destroyed when it returns. *)
Theorem initialization_description {pipeline : Type} `{Catalyst pipeline} (s : @state pipeline) :
  exists s' c config script implementation path,
    do_catalyst_initialization s = Returns tt s' /\
    calls s' = calls s ++ [c] /\ entry c = Initialize /\
    live c !! params c = Some config /\
    node_leaves config =
      [(split_path "catalyst/scripts/script0", char8_str script);
       (split_path "catalyst_load/implementation", char8_str implementation);
       (split_path ("catalyst_load/search_paths/" +:+ implementation), char8_str path)] /\
    script = "catalyst_pipeline.py"%string /\
    implementation = "paraview"%string /\
    path = "/home/uqngibbo/source/ParaView/build/lib/catalyst"%string /\
    nodes s !! params c = None /\
    nodes s' !! params c = None /\
    nodes s' = nodes s.
Proof.
  eexists _, _, init_description, "catalyst_pipeline.py"%string, "paraview"%string,
    "/home/uqngibbo/source/ParaView/build/lib/catalyst"%string.
  split; [apply do_catalyst_initialization_run | ].
  rewrite calls_log_status, nodes_log_status. simpl.
  do 2 (split; [reflexivity | ]).
  split; [apply lookup_insert_eq | ].
  split; [reflexivity | ].
  do 3 (split; [reflexivity | ]).
  split; [apply fresh_node | ]. split; [apply fresh_node | reflexivity].
Qed.

(** C8 from a process with no node: one call, the three entries, and no
    node left. *)
Lemma initialization_description_witness :
  exists s' c config,
    do_catalyst_initialization (fresh_process 0) = Returns tt s' /\
    calls s' = [c] /\ entry c = Initialize /\
    live c !! params c = Some config /\
    node_leaves config =
      [(["catalyst"; "scripts"; "script0"], char8_str "catalyst_pipeline.py");
       (["catalyst_load"; "implementation"], char8_str "paraview");
       (["catalyst_load"; "search_paths"; "paraview"],
        char8_str "/home/uqngibbo/source/ParaView/build/lib/catalyst")]%string /\
    nodes s' = ∅.
Proof.
  destruct (initialization_description (fresh_process 0))
    as (s' & c & config & script & implementation & path & Hrun & Hcalls & Hentry & Hlive &
        Hleaves & -> & -> & -> & _ & _ & Hnodes).
  exists s', c, config.
  exact (conj Hrun (conj Hcalls (conj Hentry (conj Hlive (conj Hleaves Hnodes))))).
Defined.

(** ** Sizes and the duplicated write *)

(** C9. The three counts of a snapshot are [unsigned int] values, so none
    exceeds 2^32 - 1.  The parameters of a submission describe no external
    array and its mesh describes eight (three axes, the connectivity, four
    fields); each has one of the three counts as its length, so every length
    the pipeline is given lies in that range.  A cycle that does not submit
    hands the pipeline nothing. *)
Theorem counts_are_32_bit {pipeline : Type} `{Catalyst pipeline}
  (s : @state pipeline) (cycle : int) (time : float) (d : CatalystData) :
  (0 <= uint_val (NumberOfPoints d) <= 2 ^ 32 - 1 /\
   0 <= uint_val (NumberOfCells d) <= 2 ^ 32 - 1 /\
   0 <= uint_val (Cell2VertexSize d) <= 2 ^ 32 - 1) /\
  (valid_dimensions d ->
   exists s' c exec_tree m tree,
     do_catalyt_execute cycle time d s = Returns tt s' /\
     calls s' = calls s ++ [c] /\ entry c = Execute /\
     live c !! params c = Some exec_tree /\
     submitted_mesh c = Some (m, tree) /\
     node_views exec_tree = [] /\
     length (node_views tree) = 8%nat /\
     Forall (fun v =>
               In (num_elements v)
                  [uint_val (NumberOfPoints d); uint_val (NumberOfCells d);
                   uint_val (Cell2VertexSize d)] /\
               0 <= num_elements v <= 2 ^ 32 - 1)
            (node_views tree)) /\
  (~ valid_dimensions d ->
   exists s', do_catalyt_execute cycle time d s = Exits 1 s' /\ calls s' = calls s).
Proof.
  pose proof (uint_bounds (NumberOfPoints d)) as Hp.
  pose proof (uint_bounds (NumberOfCells d)) as Hc.
  pose proof (uint_bounds (Cell2VertexSize d)) as Hv.
  split; [lia | split].
  - intros Hdims. destruct (valid_dimensions_shape d Hdims) as [shape Hshape].
    destruct (execute_submits s cycle time d shape Hshape)
      as (s' & c & Hrun & Hcalls & Hentry & Hparams & Hlive & Hmesh & _).
    destruct (mesh_handle_fresh s) as [_ Hne].
    exists s', c, (exec_description cycle time (Some (mesh_handle s))), (mesh_handle s),
      (mesh_description d shape).
    do 3 (split; [assumption | ]).
    split; [rewrite Hlive, Hparams, lookup_insert_ne by done; apply lookup_insert_eq | ].
    split; [assumption | ].
    do 2 (split; [reflexivity | ]).
    change (node_views (mesh_description d shape)) with
      [mk_view (Points d) (uint_val (NumberOfPoints d)) 0 24 8 0;
       mk_view (Points d) (uint_val (NumberOfPoints d)) 8 24 8 0;
       mk_view (Points d) (uint_val (NumberOfPoints d)) 16 24 8 0;
       mk_view (Cells d) (uint_val (Cell2VertexSize d)) 0 8 8 0;
       mk_view (velx d) (uint_val (NumberOfCells d)) 0 8 8 0;
       mk_view (vely d) (uint_val (NumberOfCells d)) 0 8 8 0;
       mk_view (velz d) (uint_val (NumberOfCells d)) 0 8 8 0;
       mk_view (Pressure d) (uint_val (NumberOfCells d)) 0 8 8 0].
    repeat (constructor; [split; [simpl; tauto | simpl; lia] | ]).
    constructor.
  - intros Hdims.
    destruct (shape_of_cases d) as [[? _] | [[? _] | (_ & _ & Hshape)]].
    + destruct Hdims. by left.
    + destruct Hdims. by right.
    + eexists. split; [by apply do_catalyt_execute_exit | reflexivity].
Qed.

(** C9 on the unit square: eight views, every length within 32 bits. *)
Lemma counts_are_32_bit_witness :
  exists s' c m tree,
    do_catalyt_execute five (0.5)%float (square two) (fresh_process 0) = Returns tt s' /\
    submitted_mesh c = Some (m, tree) /\
    length (node_views tree) = 8%nat /\
    Forall (fun v => In (num_elements v) [4; 1; 4] /\ 0 <= num_elements v <= 2 ^ 32 - 1)
      (node_views tree).
Proof.
  destruct (proj1 (proj2 (counts_are_32_bit (fresh_process 0) five (0.5)%float (square two))))
    as (s' & c & exec_tree & m & tree & Hrun & _ & _ & _ & Hmesh & _ & Hlen & Hall);
    [left; reflexivity | ].
  exists s', c, m, tree.
  split; [exact Hrun | ]. split; [exact Hmesh | ].
  split; [exact Hlen | exact Hall].
Defined.

Lemma set_path_char8_str_twice {pipeline : Type} (n : conduit_node) (path value : string)
  (s : @state pipeline) :
  (conduit_node_set_path_char8_str n path value;;
   conduit_node_set_path_char8_str n path value) s =
  conduit_node_set_path_char8_str n path value s.
Proof.
  unfold conduit_node_set_path_char8_str, mbind, M_bind, update_node.
  destruct (nodes s !! n) as [t | ] eqn:Hn; [ | reflexivity].
  simpl. rewrite lookup_insert_eq, node_set_idem.
  f_equal. unfold set_node; simpl. by rewrite insert_insert_eq.
Qed.

(** C10. Writing the same string twice to the same path of a node leaves
    what writing it once leaves; in particular the Builder, which writes
    "explicit" to coordsets/coords/type twice, behaves in every state exactly
    as the Builder that writes it once: same outcome, same submitted
    description, same final state. *)
Theorem duplicate_write_is_idempotent {pipeline : Type} `{Catalyst pipeline} :
  (forall (n : conduit_node) (path value : string) (s : @state pipeline),
     (conduit_node_set_path_char8_str n path value;;
      conduit_node_set_path_char8_str n path value) s =
     conduit_node_set_path_char8_str n path value s) /\
  (forall (cycle : int) (time : float) (d : CatalystData) (s : @state pipeline),
     do_catalyt_execute cycle time d s = do_catalyt_execute_single_write cycle time d s).
Proof.
  split; [apply set_path_char8_str_twice | ].
  intros cycle time d s.
  unfold do_catalyt_execute, do_catalyt_execute_single_write.
  rewrite !bind_create. autorewrite with conduit_steps.
  rewrite !bind_create. autorewrite with conduit_steps.
  by rewrite node_set_idem.
Qed.

(** ** Further properties of the three entry points *)

Lemma bind_returns {pipeline : Type} {A B : Type} (m : @M pipeline A) (k : A -> @M pipeline B)
  (a : A) (s s' : @state pipeline) :
  m s = Returns a s' -> (m ≫= k) s = k a s'.
Proof. intros Hm. unfold mbind, M_bind. by rewrite Hm. Qed.

Lemma bind_exits {pipeline : Type} {A B : Type} (m : @M pipeline A) (k : A -> @M pipeline B)
  (code : Z) (s s' : @state pipeline) :
  m s = Exits code s' -> (m ≫= k) s = Exits code s'.
Proof. intros Hm. unfold mbind, M_bind. by rewrite Hm. Qed.

Lemma invalid_dimensions_shape d : ~ valid_dimensions d -> shape_of d = None.
Proof.
  intros Hdims.
  destruct (shape_of_cases d) as [[? _] | [[? _] | (_ & _ & Hshape)]]; [ | | done].
  - destruct Hdims. by left.
  - destruct Hdims. by right.
Qed.

(** X1. With a [dimensions] other than 2 and 3 the Builder stops the process
    with exit code 1 after writing "Error, incorrect dimensions ", the value
    and a space (no newline) to stdout.  Neither description is destroyed on
    this path: the parameters and the mesh created by the call are still live,
    the parameters without their data link and the mesh without elements and
    fields.  Every other node, the memory and the pipeline are as before. *)
Theorem invalid_dimensions_exit {pipeline : Type} `{Catalyst pipeline}
  (s : @state pipeline) (cycle : int) (time : float) (d : CatalystData) :
  ~ valid_dimensions d ->
  exists s' exec mesh exec_tree mesh_tree,
    do_catalyt_execute cycle time d s = Exits 1 s' /\
    stdout s' =
      stdout s +:+ "Error, incorrect dimensions " +:+ string_of_Z (int_val (dimensions d)) +:+ " " /\
    exec ≠ mesh /\
    nodes s !! exec = None /\ nodes s !! mesh = None /\
    nodes s' !! exec = Some exec_tree /\ nodes s' !! mesh = Some mesh_tree /\
    (forall n, n ≠ exec -> n ≠ mesh -> nodes s' !! n = nodes s !! n) /\
    fetch_path "catalyst/state/timestep" exec_tree = Some (Leaf (int64 (int_val cycle))) /\
    fetch_path "catalyst/channels/grid/data" exec_tree = None /\
    fetch_path "topologies/mesh/elements" mesh_tree = None /\
    fetch_path "fields" mesh_tree = None /\
    memory s' = memory s /\ backend s' = backend s /\ calls s' = calls s.
Proof.
  intros Hdims. apply invalid_dimensions_shape in Hdims.
  destruct (mesh_handle_fresh s) as [Hfresh Hne].
  exists (write_stdout (format_d "Error, incorrect dimensions %d " (int_val (dimensions d)))
            (set_node (mesh_handle s) (partial_mesh_description d)
               (set_node (exec_handle s) (exec_description cycle time None) s))),
    (exec_handle s), (mesh_handle s), (exec_description cycle time None),
    (partial_mesh_description d).
  split; [by apply do_catalyt_execute_exit | ].
  split; [reflexivity | ]. split; [assumption | ].
  split; [apply exec_handle_fresh | ]. split; [assumption | ].
  cbn [nodes write_stdout set_node memory backend calls].
  split; [rewrite lookup_insert_ne by done; apply lookup_insert_eq | ].
  split; [apply lookup_insert_eq | ].
  split; [intros n Hexec Hmesh; by rewrite !lookup_insert_ne | ].
  repeat split.
Qed.

(** X1 with [dimensions] 5 on the unit square. *)
Lemma invalid_dimensions_exit_witness :
  exists s' exec mesh,
    do_catalyt_execute five (0.5)%float (square five) (fresh_process 0) = Exits 1 s' /\
    stdout s' = "Error, incorrect dimensions 5 "%string /\
    exec ≠ mesh /\ is_Some (nodes s' !! exec) /\ is_Some (nodes s' !! mesh) /\
    calls s' = [].
Proof.
  destruct (invalid_dimensions_exit (fresh_process 0) five (0.5)%float (square five))
    as (s' & exec & mesh & exec_tree & mesh_tree & Hrun & Hout & Hne & _ & _ & Hexec & Hmesh &
        _ & _ & _ & _ & _ & _ & _ & Hcalls).
  { unfold valid_dimensions. simpl. lia. }
  exists s', exec, mesh.
  split; [exact Hrun | ]. split; [exact Hout | ]. split; [exact Hne | ].
  split; [by eexists | ]. split; [by eexists | exact Hcalls].
Defined.

(** X2. The Finalizer hands the finalize entry point an empty description
    (a node with no child and no leaf), on its one call into the pipeline.
    The node is created by the call and destroyed before it returns; every
    node that was live before is passed on unchanged, the memory is untouched
    and the pipeline is left in the state its answer carries. *)
Theorem finalization_description {pipeline : Type} `{Catalyst pipeline} (s : @state pipeline) :
  exists s' c config,
    do_catalyt_finalization s = Returns tt s' /\
    calls s' = calls s ++ [c] /\ entry c = Finalize /\
    live c !! params c = Some config /\
    children config = [] /\ node_leaves config = [] /\
    nodes s !! params c = None /\
    (forall n, n ≠ params c -> live c !! n = nodes s !! n) /\
    nodes s' = nodes s /\
    memory s' = memory s /\
    backend s' = snd (pipeline_finalize (live c) (memory s) (params c) (backend s)).
Proof.
  eexists _, _, Empty. split; [apply do_catalyt_finalization_run | ].
  rewrite calls_log_status, nodes_log_status, memory_log_status. simpl.
  do 2 (split; [reflexivity | ]).
  split; [apply lookup_insert_eq | ]. do 2 (split; [reflexivity | ]).
  split; [apply fresh_node | ].
  split; [intros n Hn; apply lookup_insert_ne; intros Heq; by apply Hn | ].
  do 2 (split; [reflexivity | ]).
  unfold log_status. by destruct (negb _).
Qed.

(** X3. While the execute entry point runs, the live nodes are those of
    before the call together with the two descriptions of this cycle, which
    are new: no other node is created, changed or destroyed by the Builder.
    After the call the pipeline is in the state its answer carries. *)
Theorem builder_frame {pipeline : Type} `{Catalyst pipeline}
  (s : @state pipeline) (cycle : int) (time : float) (d : CatalystData) :
  valid_dimensions d ->
  exists s' c m tree,
    do_catalyt_execute cycle time d s = Returns tt s' /\
    calls s' = calls s ++ [c] /\
    submitted_mesh c = Some (m, tree) /\
    nodes s !! params c = None /\ nodes s !! m = None /\
    dom (live c) = {[params c; m]} ∪ dom (nodes s) /\
    (forall n, n ≠ params c -> n ≠ m -> live c !! n = nodes s !! n) /\
    backend s' = snd (pipeline_execute (live c) (memory s) (params c) (backend s)).
Proof.
  intros Hdims. destruct (valid_dimensions_shape d Hdims) as [shape Hshape].
  destruct (execute_submits s cycle time d shape Hshape)
    as (s' & c & Hrun & Hcalls & _ & Hparams & Hlive & Hmesh & _ & _ & Hs').
  destruct (mesh_handle_fresh s) as [Hfresh _].
  exists s', c, (mesh_handle s), (mesh_description d shape).
  do 3 (split; [assumption | ]).
  rewrite Hs', Hlive, Hparams.
  split; [apply exec_handle_fresh | ]. split; [assumption | ].
  split; [ | split].
  - rewrite !dom_insert_L. apply set_eq. intros n.
    rewrite !elem_of_union, !elem_of_singleton. tauto.
  - intros n Hexec Hm. by rewrite !lookup_insert_ne.
  - unfold log_status. by destruct (negb _).
Qed.

(** X3 in a process that already holds a node under handle 0: the pipeline
    sees it as it was. *)
Lemma builder_frame_witness :
  exists s' c,
    do_catalyt_execute five (0.5)%float (square two)
      (set_node 0%nat (Leaf (int64 7)) (fresh_process 3)) = Returns tt s' /\
    calls s' = [c] /\
    live c !! 0%nat = Some (Leaf (int64 7)) /\
    received (backend s') = 1%nat.
Proof.
  destruct (builder_frame (set_node 0%nat (Leaf (int64 7)) (fresh_process 3)) five (0.5)%float
              (square two))
    as (s' & c & m & tree & Hrun & Hcalls & Hmesh & Hexec & Hm & Hdom & Hframe & Hbackend);
    [left; reflexivity | ].
  exists s', c. split; [exact Hrun | ]. split; [exact Hcalls | ].
  split; [ | by rewrite Hbackend].
  rewrite Hframe; [apply lookup_insert_eq | | ].
  - intros Heq. rewrite <- Heq in Hexec. cbn [nodes set_node] in Hexec.
    by rewrite lookup_insert_eq in Hexec.
  - intros Heq. rewrite <- Heq in Hm. cbn [nodes set_node] in Hm.
    by rewrite lookup_insert_eq in Hm.
Defined.

(** X4. The mesh of a submission is closed under its own references.  Its
    children are coordsets, topologies and fields, in this order; the one
    coordinate set is coords, of type explicit with values x, y, z; the one
    topology is mesh, of type unstructured with elements shape and
    connectivity; the coordset the topology names is a coordinate set of the
    mesh, and the topology each field names is a topology of the mesh. *)
Theorem mesh_is_self_consistent {pipeline : Type} `{Catalyst pipeline}
  (s : @state pipeline) (cycle : int) (time : float) (d : CatalystData) :
  valid_dimensions d ->
  exists s' c m tree coordset,
    do_catalyt_execute cycle time d s = Returns tt s' /\
    calls s' = calls s ++ [c] /\
    submitted_mesh c = Some (m, tree) /\
    map fst (children tree) = ["coordsets"; "topologies"; "fields"]%string /\
    child_names "coordsets" tree = Some ["coords"]%string /\
    child_names "coordsets/coords" tree = Some ["type"; "values"]%string /\
    child_names "coordsets/coords/values" tree = Some ["x"; "y"; "z"]%string /\
    fetch_path "coordsets/coords/type" tree = Some (Leaf (char8_str "explicit")) /\
    child_names "topologies" tree = Some ["mesh"]%string /\
    child_names "topologies/mesh" tree = Some ["type"; "coordset"; "elements"]%string /\
    child_names "topologies/mesh/elements" tree = Some ["shape"; "connectivity"]%string /\
    fetch_path "topologies/mesh/type" tree = Some (Leaf (char8_str "unstructured")) /\
    coordset = "coords"%string /\
    fetch_path "topologies/mesh/coordset" tree = Some (Leaf (char8_str coordset)) /\
    is_Some (fetch_path ("coordsets/" +:+ coordset) tree) /\
    forall name p, In (name, p) (cell_fields d) ->
      exists topology,
        fetch_path ("fields/" +:+ name +:+ "/topology") tree = Some (Leaf (char8_str topology)) /\
        is_Some (fetch_path ("topologies/" +:+ topology) tree).
Proof.
  intros Hdims. destruct (valid_dimensions_shape d Hdims) as [shape Hshape].
  destruct (execute_submits s cycle time d shape Hshape)
    as (s' & c & Hrun & Hcalls & _ & _ & _ & Hmesh & _).
  exists s', c, (mesh_handle s), (mesh_description d shape), "coords"%string.
  do 3 (split; [assumption | ]).
  do 11 (split; [reflexivity | ]).
  split; [by eexists | ].
  intros name p Hin. exists "mesh"%string. simpl in Hin.
  destruct Hin as [Hin | [Hin | [Hin | [Hin | []]]]]; inversion Hin; subst;
    (split; [reflexivity | by eexists]).
Qed.

(** X4 on the unit square. *)
Lemma mesh_is_self_consistent_witness :
  exists s' c m tree,
    do_catalyt_execute five (0.5)%float (square three) (fresh_process 0) = Returns tt s' /\
    submitted_mesh c = Some (m, tree) /\
    map fst (children tree) = ["coordsets"; "topologies"; "fields"]%string /\
    fetch_path "topologies/mesh/coordset" tree = Some (Leaf (char8_str "coords")) /\
    is_Some (fetch_path "coordsets/coords" tree).
Proof.
  destruct (mesh_is_self_consistent (fresh_process 0) five (0.5)%float (square three))
    as (s' & c & m & tree & coordset & Hrun & _ & Hmesh & Hroot & _ & _ & _ & _ & _ & _ & _ &
        _ & -> & Hcoordset & Hsome & _); [right; reflexivity | ].
  exists s', c, m, tree.
  split; [exact Hrun | ]. split; [exact Hmesh | ]. split; [exact Hroot | ].
  split; [exact Hcoordset | exact Hsome].
Defined.

(** ** The bytes the coordinate views address *)

Lemma axis_cases name a :
  In (name, a) axes ->
  (name = "x"%string /\ a = 0) \/ (name = "y"%string /\ a = 1) \/ (name = "z"%string /\ a = 2).
Proof.
  simpl. intros [Hin | [Hin | [Hin | []]]]; inversion Hin; auto.
Qed.

(** The view of an axis in either form of the mesh. *)
Lemma axis_view d tree name a v :
  (exists shape, tree = mesh_description d shape) \/ tree = partial_mesh_description d ->
  In (name, a) axes ->
  is_float64_view tree ("coordsets/coords/values/" +:+ name) v ->
  v = mk_view (Points d) (uint_val (NumberOfPoints d)) (8 * a) 24 8 0.
Proof.
  intros Htree Hin Hv. unfold is_float64_view in Hv.
  destruct (axis_cases name a Hin) as [[-> ->] | [[-> ->] | [-> ->]]];
    destruct Htree as [[shape ->] | ->]; by inversion Hv.
Qed.

(** Every run of the Builder builds one of the two forms. *)
Lemma built_form {pipeline : Type} `{Catalyst pipeline}
  (s : @state pipeline) (cycle : int) (time : float) (d : CatalystData) :
  exists m tree,
    built s (do_catalyt_execute cycle time d s) m tree /\
    ((exists shape, tree = mesh_description d shape) \/ tree = partial_mesh_description d).
Proof.
  destruct (shape_of d) as [shape | ] eqn:Hshape.
  - destruct (execute_submits s cycle time d shape Hshape)
      as (s' & c & Hrun & Hcalls & Hentry & _ & _ & Hmesh & _).
    exists (mesh_handle s), (mesh_description d shape). split; [ | left; by exists shape].
    rewrite Hrun. simpl. by exists c.
  - exists (mesh_handle s), (partial_mesh_description d). split; [ | by right].
    rewrite do_catalyt_execute_exit by done. simpl. apply lookup_insert_eq.
Qed.

(** X5. The coordinate views never address a byte outside the
    [3 * NumberOfPoints] doubles that start at [Points], and no two elements
    of the views overlap: elements of different axes, or of the same axis at
    different indices, occupy disjoint bytes. *)
Theorem coordinate_views_stay_inside {pipeline : Type} `{Catalyst pipeline}
  (s : @state pipeline) (cycle : int) (time : float) (d : CatalystData) :
  exists m tree,
    built s (do_catalyt_execute cycle time d s) m tree /\
    forall name a, In (name, a) axes ->
      exists v,
        is_float64_view tree ("coordsets/coords/values/" +:+ name) v /\
        forall i, 0 <= i < uint_val (NumberOfPoints d) ->
          Points d <= element_first v i /\
          element_end v i <= Points d + 3 * uint_val (NumberOfPoints d) * sizeof_double /\
          forall name' a' v' i',
            In (name', a') axes ->
            is_float64_view tree ("coordsets/coords/values/" +:+ name') v' ->
            0 <= i' < uint_val (NumberOfPoints d) ->
            (a, i) ≠ (a', i') ->
            element_end v i <= element_first v' i' \/ element_end v' i' <= element_first v i.
Proof.
  destruct (built_form s cycle time d) as (m & tree & Hbuilt & Htree).
  exists m, tree. split; [exact Hbuilt | ].
  intros name a Hin.
  exists (mk_view (Points d) (uint_val (NumberOfPoints d)) (8 * a) 24 8 0). split.
  { unfold is_float64_view.
    destruct (axis_cases name a Hin) as [[-> ->] | [[-> ->] | [-> ->]]];
      destruct Htree as [[shape ->] | ->]; reflexivity. }
  intros i Hi.
  assert (Ha : 0 <= a <= 2) by (destruct (axis_cases name a Hin) as [[_ ->] | [[_ ->] | [_ ->]]]; lia).
  unfold element_end, element_first, sizeof_double. simpl.
  split; [lia | ]. split; [lia | ].
  intros name' a' v' i' Hin' Hv' Hi' Hdiff.
  pose proof (axis_view d tree name' a' v' Htree Hin' Hv') as ->.
  assert (Ha' : 0 <= a' <= 2)
    by (destruct (axis_cases name' a' Hin') as [[_ ->] | [[_ ->] | [_ ->]]]; lia).
  simpl.
  destruct (Z.eq_dec i i') as [-> | Hi_ne].
  - assert (a ≠ a') by (intros ->; by apply Hdiff). lia.
  - lia.
Qed.

(** X5 on the unit square: the last element of the z view ends where the
    twelve doubles end, and x[1] and y[1] do not overlap. *)
Lemma coordinate_views_stay_inside_witness :
  exists m tree vx vy vz,
    built (fresh_process 0) (do_catalyt_execute five (0.5)%float (square two) (fresh_process 0))
      m tree /\
    is_float64_view tree "coordsets/coords/values/x" vx /\
    is_float64_view tree "coordsets/coords/values/y" vy /\
    is_float64_view tree "coordsets/coords/values/z" vz /\
    element_end vz 3 <= 4096 + 96 /\
    (element_end vx 1 <= element_first vy 1 \/ element_end vy 1 <= element_first vx 1).
Proof.
  destruct (coordinate_views_stay_inside (fresh_process 0) five (0.5)%float (square two))
    as (m & tree & Hbuilt & Hall).
  destruct (Hall "x"%string 0) as (vx & Hvx & Hx); [left; reflexivity | ].
  destruct (Hall "y"%string 1) as (vy & Hvy & Hy); [right; left; reflexivity | ].
  destruct (Hall "z"%string 2) as (vz & Hvz & Hz); [right; right; left; reflexivity | ].
  exists m, tree, vx, vy, vz.
  split; [exact Hbuilt | ]. split; [exact Hvx | ]. split; [exact Hvy | ]. split; [exact Hvz | ].
  split.
  - apply (Hz 3). simpl. lia.
  - destruct (Hx 1) as (_ & _ & Hdisjoint); [simpl; lia | ].
    apply (Hdisjoint "y"%string 1 vy 1);
      [right; left; reflexivity | exact Hvy | simpl; lia | discriminate].
Defined.

(** X6. The three views together read every component of the points
    array: component [k] of the [3 * NumberOfPoints] doubles is element
    [k / 3] of the view of the axis whose index is [k mod 3]. *)
Theorem coordinate_views_cover_points {pipeline : Type} `{Catalyst pipeline}
  (s : @state pipeline) (cycle : int) (time : float) (d : CatalystData) :
  exists m tree,
    built s (do_catalyt_execute cycle time d s) m tree /\
    forall k, 0 <= k < 3 * uint_val (NumberOfPoints d) ->
      exists name v,
        In (name, k mod 3) axes /\
        is_float64_view tree ("coordsets/coords/values/" +:+ name) v /\
        0 <= k / 3 < num_elements v /\
        view_element (memory s) v (k / 3) = c_index (memory s) (Points d) k.
Proof.
  destruct (built_form s cycle time d) as (m & tree & Hbuilt & Htree).
  exists m, tree. split; [exact Hbuilt | ].
  intros k Hk.
  assert (Hdiv : 0 <= k / 3 < uint_val (NumberOfPoints d))
    by (split; [apply Z.div_pos; lia | apply Z.div_lt_upper_bound; lia]).
  assert (Hmod : 0 <= k mod 3 < 3) by (apply Z.mod_pos_bound; lia).
  assert (Hk3 : k = 3 * (k / 3) + k mod 3) by (apply Z.div_mod; lia).
  assert (Hname : exists name, In (name, k mod 3) axes).
  { destruct (Z.eq_dec (k mod 3) 0) as [-> | ?]; [exists "x"%string; simpl; auto | ].
    destruct (Z.eq_dec (k mod 3) 1) as [-> | ?]; [exists "y"%string; simpl; auto | ].
    assert (k mod 3 = 2) as -> by lia. exists "z"%string; simpl; auto. }
  destruct Hname as [name Hin].
  exists name, (mk_view (Points d) (uint_val (NumberOfPoints d)) (8 * (k mod 3)) 24 8 0).
  split; [exact Hin | ]. split.
  - unfold is_float64_view.
    destruct (axis_cases name (k mod 3) Hin) as [[-> ->] | [[-> ->] | [-> ->]]];
      destruct Htree as [[shape ->] | ->]; reflexivity.
  - split; [exact Hdiv | ].
    rewrite view_element_interleaved by exact Hdiv. by rewrite <- Hk3.
Qed.

(** ** Sequences of calls *)

Section Sequences.

Context {pipeline : Type} `{Catalyst pipeline}.
Implicit Types (s : @state pipeline) (cycles : list (int * float * CatalystData)).

Lemma submitted_timestep_linked e (exec : conduit_node) cycle time mesh (ns : gmap nat node) :
  submitted_timestep (mk_call e exec (<[exec := exec_description cycle time mesh]> ns)) =
  Some (int_val cycle).
Proof.
  unfold submitted_timestep; simpl live; simpl params.
  rewrite (lookup_insert_eq ns exec). by destruct mesh.
Qed.

Lemma execute_valid_step s cycle time d :
  valid_dimensions d ->
  exists s' c,
    do_catalyt_execute cycle time d s = Returns tt s' /\
    calls s' = calls s ++ [c] /\
    entry c = Execute /\
    submitted_timestep c = Some (int_val cycle) /\
    nodes s' = nodes s /\ memory s' = memory s.
Proof.
  intros Hdims. destruct (valid_dimensions_shape d Hdims) as [shape Hshape].
  destruct (mesh_handle_fresh s) as [_ Hne].
  eexists _, _. split; [by apply do_catalyt_execute_run | ].
  rewrite calls_log_status, nodes_log_status, memory_log_status. simpl.
  do 2 (split; [reflexivity | ]). split; [ | by split].
  rewrite insert_insert_ne by done. apply submitted_timestep_linked.
Qed.

Lemma execute_cycles_valid cycles : forall s,
  Forall (fun x => valid_dimensions x.2) cycles ->
  exists s' new,
    execute_cycles cycles s = Returns tt s' /\
    calls s' = calls s ++ new /\
    Forall2 (fun c x => entry c = Execute /\ submitted_timestep c = Some (int_val x.1.1))
      new cycles /\
    nodes s' = nodes s /\ memory s' = memory s.
Proof.
  induction cycles as [ | [[cycle time] d] rest IH]; intros s Hvalid.
  - exists s, []. simpl. rewrite app_nil_r. repeat split. constructor.
  - inversion Hvalid as [ | ? ? Hd Hrest]; subst. simpl in Hd.
    destruct (execute_valid_step s cycle time d Hd)
      as (s1 & c & Hrun & Hcalls & Hentry & Hstep & Hnodes & Hmem).
    destruct (IH s1 Hrest) as (s' & new & Hruns & Hcalls' & Hnew & Hnodes' & Hmem').
    exists s', (c :: new). simpl execute_cycles.
    rewrite (bind_returns _ _ tt s s1 Hrun).
    split; [exact Hruns | ].
    split; [rewrite Hcalls', Hcalls, <- app_assoc; reflexivity | ].
    split; [constructor; [by split | exact Hnew] | ].
    split; congruence.
Qed.

Lemma execute_cycles_invalid good : forall s cycle time d rest,
  Forall (fun x => valid_dimensions x.2) good ->
  ~ valid_dimensions d ->
  exists s' new,
    execute_cycles (good ++ (cycle, time, d) :: rest) s = Exits 1 s' /\
    calls s' = calls s ++ new /\
    Forall2 (fun c x => entry c = Execute /\ submitted_timestep c = Some (int_val x.1.1))
      new good.
Proof.
  induction good as [ | [[cycle0 time0] d0] good IH]; intros s cycle time d rest Hvalid Hbad.
  - simpl. eexists _, [].
    split; [eapply bind_exits; apply do_catalyt_execute_exit; by apply invalid_dimensions_shape | ].
    simpl. rewrite app_nil_r. split; [reflexivity | constructor].
  - inversion Hvalid as [ | ? ? Hd Hrest]; subst. simpl in Hd.
    destruct (execute_valid_step s cycle0 time0 d0 Hd)
      as (s1 & c & Hrun & Hcalls & Hentry & Hstep & _).
    destruct (IH s1 cycle time d rest Hrest Hbad) as (s' & new & Hruns & Hcalls' & Hnew).
    exists s', (c :: new). simpl execute_cycles.
    rewrite (bind_returns _ _ tt s s1 Hrun).
    split; [exact Hruns | ].
    split; [rewrite Hcalls', Hcalls, <- app_assoc; reflexivity | ].
    constructor; [by split | exact Hnew].
Qed.

End Sequences.

(** X7. Any number of cycles with valid [dimensions], run one after the
    other, all return: the pipeline receives one execute call per cycle, in
    the order of the cycles and each carrying the timestep of its cycle, and
    afterwards the live nodes and the memory are those of before the first
    cycle, however many cycles ran and whatever the pipeline answered. *)
Theorem cycles_leave_nothing_behind {pipeline : Type} `{Catalyst pipeline}
  (s : @state pipeline) (cycles : list (int * float * CatalystData)) :
  Forall (fun x => valid_dimensions x.2) cycles ->
  exists s' new,
    execute_cycles cycles s = Returns tt s' /\
    calls s' = calls s ++ new /\
    Forall2 (fun c x => entry c = Execute /\ submitted_timestep c = Some (int_val x.1.1))
      new cycles /\
    nodes s' = nodes s /\ memory s' = memory s.
Proof. apply execute_cycles_valid. Qed.

(** X7 for the first two of the three cycles over the unit square, with a
    failing pipeline: timesteps 2 then 3, and no node left. *)
Lemma cycles_leave_nothing_behind_witness :
  exists s' c1 c2,
    execute_cycles (take 2 three_cycles) (fresh_process 3) = Returns tt s' /\
    calls s' = [c1; c2] /\
    submitted_timestep c1 = Some 2 /\ submitted_timestep c2 = Some 3 /\
    nodes s' = ∅.
Proof.
  destruct (cycles_leave_nothing_behind (fresh_process 3) (take 2 three_cycles))
    as (s' & new & Hrun & Hcalls & Hnew & Hnodes & _).
  { repeat constructor. }
  simpl in Hnew.
  inversion Hnew as [ | c1 x1 new1 l1 [_ H1] Hnew1]; subst.
  inversion Hnew1 as [ | c2 x2 new2 l2 [_ H2] Hnew2]; subst.
  inversion Hnew2; subst.
  exists s', c1, c2.
  split; [exact Hrun | ]. split; [exact Hcalls | ].
  split; [exact H1 | ]. split; [exact H2 | exact Hnodes].
Defined.

(** X8. A cycle with an invalid [dimensions] ends the run: the cycles
    before it were submitted, one execute call each, and neither a later
    cycle nor the Finalizer that follows reaches the pipeline; the process
    exits with code 1 without a finalize call. *)
Theorem invalid_cycle_ends_the_run {pipeline : Type} `{Catalyst pipeline}
  (s : @state pipeline) (good rest : list (int * float * CatalystData))
  (cycle : int) (time : float) (d : CatalystData) :
  Forall (fun x => valid_dimensions x.2) good ->
  ~ valid_dimensions d ->
  exists s' new,
    (execute_cycles (good ++ (cycle, time, d) :: rest);; do_catalyt_finalization) s = Exits 1 s' /\
    calls s' = calls s ++ new /\
    Forall2 (fun c x => entry c = Execute /\ submitted_timestep c = Some (int_val x.1.1))
      new good.
Proof.
  intros Hvalid Hbad.
  destruct (execute_cycles_invalid good s cycle time d rest Hvalid Hbad)
    as (s' & new & Hrun & Hcalls & Hnew).
  exists s', new. split; [by apply bind_exits | by split].
Qed.

(** X8: one good cycle, then [dimensions] 5, then a cycle that never runs. *)
Lemma invalid_cycle_ends_the_run_witness :
  exists s' c,
    (execute_cycles [(two, (0.25)%float, square two); (three, (0.5)%float, square five);
                     (five, (0.75)%float, square three)];;
     do_catalyt_finalization) (fresh_process 0) = Exits 1 s' /\
    calls s' = [c] /\ entry c = Execute /\ submitted_timestep c = Some 2.
Proof.
  destruct (invalid_cycle_ends_the_run (fresh_process 0) [(two, (0.25)%float, square two)]
              [(five, (0.75)%float, square three)] three (0.5)%float (square five))
    as (s' & new & Hrun & Hcalls & Hnew).
  { repeat constructor. }
  { unfold valid_dimensions. simpl. lia. }
  inversion Hnew as [ | c x new1 l1 [Hentry Hstep] Hnew1]; subst.
  inversion Hnew1; subst.
  exists s', c. split; [exact Hrun | ]. split; [exact Hcalls | ]. split; [exact Hentry | exact Hstep].
Defined.

Lemma initialization_step {pipeline : Type} `{Catalyst pipeline} (s : @state pipeline) :
  exists s' c,
    do_catalyst_initialization s = Returns tt s' /\
    calls s' = calls s ++ [c] /\ entry c = Initialize /\
    nodes s !! params c = None /\
    live c = <[params c := init_description]> (nodes s) /\
    nodes s' = nodes s /\ memory s' = memory s /\
    backend s' = snd (pipeline_initialize (live c) (memory s) (params c) (backend s)).
Proof.
  eexists _, _. split; [apply do_catalyst_initialization_run | ].
  rewrite calls_log_status, nodes_log_status, memory_log_status. simpl.
  do 2 (split; [reflexivity | ]). split; [apply fresh_node | ].
  do 3 (split; [reflexivity | ]).
  unfold log_status. by destruct (negb _).
Qed.

Lemma finalization_step {pipeline : Type} `{Catalyst pipeline} (s : @state pipeline) :
  exists s' c,
    do_catalyt_finalization s = Returns tt s' /\
    calls s' = calls s ++ [c] /\ entry c = Finalize /\
    nodes s' = nodes s /\ memory s' = memory s.
Proof.
  eexists _, _. split; [apply do_catalyt_finalization_run | ].
  rewrite calls_log_status, nodes_log_status, memory_log_status. simpl.
  repeat split.
Qed.

(** X9. A whole run (the Initializer, any number of cycles with valid
    [dimensions], the Finalizer) returns, whatever the pipeline answers at
    any step.  The pipeline receives exactly one initialize call, then one
    execute call per cycle in order, then one finalize call; at the end the
    live nodes and the memory are those of before the run. *)
Theorem whole_run {pipeline : Type} `{Catalyst pipeline}
  (s : @state pipeline) (cycles : list (int * float * CatalystData)) :
  Forall (fun x => valid_dimensions x.2) cycles ->
  exists s' first new last,
    (do_catalyst_initialization;; execute_cycles cycles;; do_catalyt_finalization) s =
      Returns tt s' /\
    calls s' = calls s ++ first :: new ++ [last] /\
    entry first = Initialize /\
    Forall2 (fun c x => entry c = Execute /\ submitted_timestep c = Some (int_val x.1.1))
      new cycles /\
    entry last = Finalize /\
    nodes s' = nodes s /\ memory s' = memory s.
Proof.
  intros Hvalid.
  destruct (initialization_step s) as (s1 & first & Hinit & Hcalls1 & Hfirst & _ & _ & Hnodes1 & Hmem1 & _).
  destruct (execute_cycles_valid cycles s1 Hvalid) as (s2 & new & Hrun & Hcalls2 & Hnew & Hnodes2 & Hmem2).
  destruct (finalization_step s2) as (s3 & last & Hfini & Hcalls3 & Hlast & Hnodes3 & Hmem3).
  exists s3, first, new, last.
  split.
  { rewrite (bind_returns _ _ tt s s1 Hinit). by rewrite (bind_returns _ _ tt s1 s2 Hrun). }
  split; [rewrite Hcalls3, Hcalls2, Hcalls1, <- !app_assoc; reflexivity | ].
  do 3 (split; [assumption | ]). split; congruence.
Qed.

(** X9 for the three cycles over the unit square with a pipeline that fails
    every call: five calls in lifecycle order, no node left. *)
Lemma whole_run_witness :
  exists s' c0 c1 c2 c3 c4,
    (do_catalyst_initialization;; execute_cycles three_cycles;; do_catalyt_finalization)
      (fresh_process 3) = Returns tt s' /\
    calls s' = [c0; c1; c2; c3; c4] /\
    map entry (calls s') = [Initialize; Execute; Execute; Execute; Finalize] /\
    map submitted_timestep [c1; c2; c3] = [Some 2; Some 3; Some 5] /\
    nodes s' = ∅.
Proof.
  destruct (whole_run (fresh_process 3) three_cycles)
    as (s' & first & new & last & Hrun & Hcalls & Hfirst & Hnew & Hlast & Hnodes & _).
  { repeat (apply Forall_cons_2; [first [left; reflexivity | right; reflexivity] | ]).
    apply Forall_nil_2. }
  inversion Hnew as [ | c1 x1 new1 l1 [E1 H1] Hnew1]; subst.
  inversion Hnew1 as [ | c2 x2 new2 l2 [E2 H2] Hnew2]; subst.
  inversion Hnew2 as [ | c3 x3 new3 l3 [E3 H3] Hnew3]; subst.
  inversion Hnew3; subst.
  exists s', first, c1, c2, c3, last.
  split; [exact Hrun | ]. split; [exact Hcalls | ].
  split; [rewrite Hcalls; simpl; by rewrite Hfirst, E1, E2, E3, Hlast | ].
  split; [simpl; by rewrite H1, H2, H3 | exact Hnodes].
Defined.

(** X10. During the one call the Initializer makes, the live nodes are those
    of before the call together with the configuration, which is new: no other
    node is created, changed or destroyed.  The memory is untouched and the
    pipeline is left in the state its answer carries. *)
Theorem initialization_frame {pipeline : Type} `{Catalyst pipeline} (s : @state pipeline) :
  exists s' c,
    do_catalyst_initialization s = Returns tt s' /\
    calls s' = calls s ++ [c] /\ entry c = Initialize /\
    nodes s !! params c = None /\
    dom (live c) = {[params c]} ∪ dom (nodes s) /\
    (forall n, n ≠ params c -> live c !! n = nodes s !! n) /\
    memory s' = memory s /\
    backend s' = snd (pipeline_initialize (live c) (memory s) (params c) (backend s)).
Proof.
  destruct (initialization_step s)
    as (s' & c & Hrun & Hcalls & Hentry & Hfresh & Hlive & _ & Hmem & Hbackend).
  exists s', c. do 4 (split; [assumption | ]).
  split; [rewrite Hlive at 1; apply dom_insert_L | ].
  split; [intros n Hn; rewrite Hlive; apply lookup_insert_ne; intros Heq; by apply Hn | ].
  by split.
Qed.

(** X11. The connectivity and the four field values are dense views: each
    starts at the address of its snapshot array, has the array's count as
    its length, and its consecutive elements are adjacent 8-byte slots, so
    that [len] elements span exactly the [8 * len] bytes from that address. *)
Theorem dense_views {pipeline : Type} `{Catalyst pipeline}
  (s : @state pipeline) (cycle : int) (time : float) (d : CatalystData) :
  valid_dimensions d ->
  exists s' c m tree,
    do_catalyt_execute cycle time d s = Returns tt s' /\
    calls s' = calls s ++ [c] /\
    submitted_mesh c = Some (m, tree) /\
    forall path p len, In (path, p, len) (dense_arrays d) ->
      exists t v,
        fetch_path path tree = Some (Leaf (external_array t v)) /\
        num_elements v = len /\
        element_first v 0 = p /\
        (forall k, element_end v k = element_first v (k + 1)) /\
        (forall k, element_end v k = p + (k + 1) * 8).
Proof.
  intros Hdims. destruct (valid_dimensions_shape d Hdims) as [shape Hshape].
  destruct (execute_submits s cycle time d shape Hshape)
    as (s' & c & Hrun & Hcalls & _ & _ & _ & Hmesh & _).
  exists s', c, (mesh_handle s), (mesh_description d shape).
  do 3 (split; [assumption | ]).
  intros path p len Hin. simpl in Hin.
  destruct Hin as [Hin | [Hin | [Hin | [Hin | [Hin | []]]]]]; inversion Hin; subst;
    eexists _, (mk_view _ _ 0 8 8 0);
    (split; [reflexivity | ]);
    unfold element_end, element_first; simpl;
    repeat split; intros; lia.
Qed.

(** X11 on the unit square: the four connectivity entries span 32 bytes
    from address 8192. *)
Lemma dense_views_witness :
  exists s' c m tree t v,
    do_catalyt_execute five (0.5)%float (square two) (fresh_process 0) = Returns tt s' /\
    submitted_mesh c = Some (m, tree) /\
    fetch_path "topologies/mesh/elements/connectivity" tree = Some (Leaf (external_array t v)) /\
    num_elements v = 4 /\ element_first v 0 = 8192 /\ element_end v 3 = 8192 + 32.
Proof.
  destruct (dense_views (fresh_process 0) five (0.5)%float (square two))
    as (s' & c & m & tree & Hrun & _ & Hmesh & Hall); [left; reflexivity | ].
  destruct (Hall "topologies/mesh/elements/connectivity"%string 8192 4)
    as (t & v & Hv & Hlen & Hfirst & _ & Hend); [left; reflexivity | ].
  exists s', c, m, tree, t, v.
  split; [exact Hrun | ]. split; [exact Hmesh | ]. split; [exact Hv | ].
  split; [exact Hlen | ]. split; [exact Hfirst | ]. rewrite Hend. reflexivity.
Defined.

(** X12. The parameters of a submission hold four entries and no other:
    the timestep, the time, the type of the channel grid and the link to its
    data.  In particular no cycle entry is written beside the timestep. *)
Theorem execution_parameters_are_exact {pipeline : Type} `{Catalyst pipeline}
  (s : @state pipeline) (cycle : int) (time : float) (d : CatalystData) :
  valid_dimensions d ->
  exists s' c exec_tree m tree,
    do_catalyt_execute cycle time d s = Returns tt s' /\
    calls s' = calls s ++ [c] /\
    live c !! params c = Some exec_tree /\
    submitted_mesh c = Some (m, tree) /\
    node_leaves exec_tree =
      [(split_path "catalyst/state/timestep", int64 (int_val cycle));
       (split_path "catalyst/state/time", float64 time);
       (split_path "catalyst/channels/grid/type", char8_str "mesh");
       (split_path "catalyst/channels/grid/data", external_node m)] /\
    fetch_path "catalyst/state/cycle" exec_tree = None /\
    fetch_path "catalyst/cycle" exec_tree = None.
Proof.
  intros Hdims. destruct (valid_dimensions_shape d Hdims) as [shape Hshape].
  destruct (execute_submits s cycle time d shape Hshape)
    as (s' & c & Hrun & Hcalls & _ & Hparams & Hlive & Hmesh & _).
  destruct (mesh_handle_fresh s) as [_ Hne].
  exists s', c, (exec_description cycle time (Some (mesh_handle s))), (mesh_handle s),
    (mesh_description d shape).
  do 2 (split; [assumption | ]).
  split; [rewrite Hlive, Hparams, lookup_insert_ne by done; apply lookup_insert_eq | ].
  split; [assumption | ]. repeat split.
Qed.

(** X12 on the unit square, cycle 5, time 0.5. *)
Lemma execution_parameters_are_exact_witness :
  exists s' c exec_tree m,
    do_catalyt_execute five (0.5)%float (square two) (fresh_process 0) = Returns tt s' /\
    live c !! params c = Some exec_tree /\
    node_leaves exec_tree =
      [(["catalyst"; "state"; "timestep"], int64 5);
       (["catalyst"; "state"; "time"], float64 (0.5)%float);
       (["catalyst"; "channels"; "grid"; "type"], char8_str "mesh");
       (["catalyst"; "channels"; "grid"; "data"], external_node m)]%string.
Proof.
  destruct (execution_parameters_are_exact (fresh_process 0) five (0.5)%float (square two))
    as (s' & c & exec_tree & m & tree & Hrun & _ & Hlive & _ & Hleaves & _);
    [left; reflexivity | ].
  exists s', c, exec_tree, m.
  split; [exact Hrun | ]. split; [exact Hlive | exact Hleaves].
Defined.
